(** * django-filebrowser: [filebrowser/sites.py]

    A shallow embedding of the site module of django-filebrowser: the
    process-wide site cache, the date filter, the per-site action registry,
    the filter loop and pagination of the [browse] view and the upload
    view [_upload_file], followed by the properties proved about them.

    Conventions of the embedding.
    - Python [str] values are [string]; names are taken in ASCII, where
      [str.lower] is the map of 'A'..'Z' onto 'a'..'z'.
    - Python integers and clock readings (whole seconds) are [Z].
    - A Python call that may raise returns a [result]: [Ok v] or [Raise e].
    - [dict]s whose iteration order is observed are insertion-ordered
      association lists ([ODict.t]); the site cache, which is only ever
      subscripted, is a [gmap].
    - What lives outside the module (the [re] engine, the storage backend,
      Django's paginator, the settings) is either modelled from its
      documented behaviour or taken as a parameter; each such place says so. *)

From Stdlib Require Import ZArith Lia Bool Ascii String List Sorting.Sorted
  Sorting.Permutation.
From stdpp Require Import base option list gmap strings fin_maps.

Local Open Scope Z_scope.

(** ** Exceptions *)

Inductive exn : Type :=
| KeyError (key : string)
| ReError (pattern : string)
| PageNotAnInteger
| EmptyPage
| ZeroDivisionError
| AttributeError (attr : string)
| StorageError (what : string)
| OSError (what : string).

Inductive result (A : Type) : Type :=
| Ok (a : A)
| Raise (e : exn).
Arguments Ok {A} a.
Arguments Raise {A} e.

Definition rbind {A B : Type} (r : result A) (k : A -> result B) : result B :=
  match r with
  | Ok a => k a
  | Raise e => Raise e
  end.

(** Truth value of a Python [str]: the empty string is false. *)
Definition truthy (s : string) : bool := negb (String.eqb s "").

(** Truth value of [query.get(k)]: a missing key ([None]) is false. *)
Definition truthy_opt (o : option string) : bool :=
  match o with
  | None => false
  | Some s => truthy s
  end.

(** ** Calendar: [time.gmtime], [time.localtime], [time.time] *)

Module Clock.

(** The first three fields of a [struct_time]. *)
Record struct_time : Type := mk_tm { tm_year : Z; tm_mon : Z; tm_mday : Z }.

(** Proleptic Gregorian date of a day number counted from 1970-01-01. *)
Definition civil_from_days (days : Z) : struct_time :=
  let z := days + 719468 in
  let era := z / 146097 in
  let doe := z - era * 146097 in
  let yoe := (doe - doe / 1460 + doe / 36524 - doe / 146096) / 365 in
  let doy := doe - (365 * yoe + yoe / 4 - yoe / 100) in
  let mp := (5 * doy + 2) / 153 in
  let d := doy - (153 * mp + 2) / 5 + 1 in
  let m := if mp <? 10 then mp + 3 else mp - 9 in
  let y := yoe + era * 400 + (if m <=? 2 then 1 else 0) in
  mk_tm y m d.

(** [gmtime(secs)]: the UTC date of a Unix timestamp. *)
Definition gmtime (secs : Z) : struct_time := civil_from_days (secs / 86400).

(** One reading of the process clock: [time()] and [localtime()]. *)
Record t : Type := mk { time : Z; localtime : struct_time }.

End Clock.

(** ** [get_filterdate] *)

(** [int(strftime("%Y", tm))], [int(strftime("%m", tm))] and
    [int(strftime("%d", tm))] read back the year, month and day of [tm]. *)
Definition get_filterdate (clk : Clock.t) (filter_date : string) (date_time : Z)
  : string :=
  let returnvalue := "" in
  let date_year := Clock.tm_year (Clock.gmtime date_time) in
  let date_month := Clock.tm_mon (Clock.gmtime date_time) in
  let date_day := Clock.tm_mday (Clock.gmtime date_time) in
  let now := Clock.localtime clk in
  if String.eqb filter_date "today"
     && (date_year =? Clock.tm_year now)
     && (date_month =? Clock.tm_mon now)
     && (date_day =? Clock.tm_mday now)
  then "true"
  else if String.eqb filter_date "thismonth"
          && (Clock.time clk - 2592000 <=? date_time)
  then "true"
  else if String.eqb filter_date "thisyear" && (date_year =? Clock.tm_year now)
  then "true"
  else if String.eqb filter_date "past7days"
          && (Clock.time clk - 604800 <=? date_time)
  then "true"
  else if String.eqb filter_date ""
  then "true"
  else returnvalue.

(** ** Strings: [str.lower], [in], [str.startswith], [os.path] *)

Module Str.

Definition is_upper (c : ascii) : bool :=
  let n := nat_of_ascii c in (65 <=? n)%nat && (n <=? 90)%nat.

Definition is_lower (c : ascii) : bool :=
  let n := nat_of_ascii c in (97 <=? n)%nat && (n <=? 122)%nat.

Definition lower_char (c : ascii) : ascii :=
  if is_upper c then ascii_of_nat (nat_of_ascii c + 32) else c.

Definition upper_char (c : ascii) : ascii :=
  if is_lower c then ascii_of_nat (nat_of_ascii c - 32) else c.

(** [s.lower()] *)
Fixpoint lower (s : string) : string :=
  match s with
  | EmptyString => EmptyString
  | String c s' => String (lower_char c) (lower s')
  end.

(** [s.capitalize()] *)
Definition capitalize (s : string) : string :=
  match s with
  | EmptyString => EmptyString
  | String c s' => String (upper_char c) (lower s')
  end.

(** [s.replace(a, b)] for one-character [a] and [b]. *)
Fixpoint replace_char (a b : ascii) (s : string) : string :=
  match s with
  | EmptyString => EmptyString
  | String c s' =>
      String (if Ascii.eqb c a then b else c) (replace_char a b s')
  end.

(** [s.startswith(p)] *)
Definition startswith (s p : string) : bool := String.prefix p s.

(** [needle in hay] on strings: [needle] occurs as a substring. *)
Fixpoint contains (needle hay : string) : bool :=
  String.prefix needle hay
  || match hay with
     | EmptyString => false
     | String _ hay' => contains needle hay'
     end.

Fixpoint endswith_char (s : string) (c : ascii) : bool :=
  match s with
  | EmptyString => false
  | String d EmptyString => Ascii.eqb d c
  | String _ s' => endswith_char s' c
  end.

(** [posixpath.join(a, b)] *)
Definition path_join (a b : string) : string :=
  if startswith b "/" then b
  else if negb (truthy a) || endswith_char a "/" then (a ++ b)%string
  else (a ++ "/" ++ b)%string.

(** [posixpath.basename(p)]: what follows the last slash. *)
Fixpoint basename (p : string) : string :=
  match p with
  | EmptyString => EmptyString
  | String c p' =>
      if Ascii.eqb c "/" then basename p'
      else if contains "/" p' then basename p'
      else p
  end.

(** [sep.join(parts)] *)
Fixpoint join (sep : string) (parts : list string) : string :=
  match parts with
  | [] => EmptyString
  | [x] => x
  | x :: rest => (x ++ sep ++ join sep rest)%string
  end.

End Str.

(** ** The [re] module *)

(** [re.IGNORECASE] and [re.MULTILINE]. *)
Record re_flags : Type := mk_flags { IGNORECASE : bool; MULTILINE : bool }.

Definition no_flags : re_flags := mk_flags false false.
Definition re_M : re_flags := mk_flags false true.
Definition re_I : re_flags := mk_flags true false.

(** What [browse] uses of [re]: [re.compile(pattern, flags)], which raises
    [re.error] on a malformed pattern, and [compiled.search(text)] taken
    for its truth value. *)
Record re_engine : Type := mk_engine {
  re_pattern : Type;
  re_compile : string -> re_flags -> result re_pattern;
  re_search : re_pattern -> string -> bool
}.

(** An engine for the patterns made of ordinary characters and ".":
    an ordinary character matches itself (either case under IGNORECASE),
    "." matches any character but a newline, and [search] succeeds when
    the atoms match consecutively from some position. Patterns holding
    another special character of [re] are not covered: [compile] answers
    [Raise (ReError _)] for them, which is Python's behaviour for the
    malformed ones only. *)
Module ReFragment.

Inductive atom : Type :=
| AnyChar
| Lit (c : ascii).

Definition special : list ascii :=
  ["."; "^"; "$"; "*"; "+"; "?"; "{"; "}"; "["; "]"; "\"; "|"; "("; ")"]%char.

Definition is_special (c : ascii) : bool :=
  existsb (Ascii.eqb c) special.

Fixpoint plain (s : string) : bool :=
  match s with
  | EmptyString => true
  | String c s' => negb (is_special c) && plain s'
  end.

Fixpoint parse (s : string) : option (list atom) :=
  match s with
  | EmptyString => Some []
  | String c s' =>
      if Ascii.eqb c "." then cons AnyChar <$> parse s'
      else if is_special c then None
      else cons (Lit c) <$> parse s'
  end.

Definition newline : ascii := ascii_of_nat 10.

Definition atom_matches (fl : re_flags) (a : atom) (c : ascii) : bool :=
  match a with
  | AnyChar => negb (Ascii.eqb c newline)
  | Lit d =>
      if IGNORECASE fl
      then Ascii.eqb (Str.lower_char d) (Str.lower_char c)
      else Ascii.eqb d c
  end.

Fixpoint match_here (fl : re_flags) (atoms : list atom) (s : string) : bool :=
  match atoms, s with
  | [], _ => true
  | _ :: _, EmptyString => false
  | a :: atoms', String c s' => atom_matches fl a c && match_here fl atoms' s'
  end.

Fixpoint search_from (fl : re_flags) (atoms : list atom) (s : string) : bool :=
  match_here fl atoms s
  || match s with
     | EmptyString => false
     | String _ s' => search_from fl atoms s'
     end.

Definition compile (p : string) (fl : re_flags)
  : result (re_flags * list atom) :=
  match parse p with
  | Some atoms => Ok (fl, atoms)
  | None => Raise (ReError p)
  end.

Definition search (c : re_flags * list atom) (s : string) : bool :=
  search_from (fst c) (snd c) s.

Definition engine : re_engine := mk_engine (re_flags * list atom) compile search.

End ReFragment.

(** ** File objects and listings *)

(** The attributes of a [FileObject] read by [browse]. [date] is [None]
    when the backend gives no modification time. *)
Record FileObject : Type := mk_file {
  filename : string;
  filetype : string;
  date : option Z;
  format : string
}.

Definition is_folder (f : FileObject) : bool := String.eqb (filetype f) "Folder".

(** What the storage holds below a path: an entry and, for a folder, the
    entries inside it. *)
#[local] Unset Elimination Schemes.
Inductive dirtree : Type :=
| Node (obj : FileObject) (children : list dirtree).
#[local] Set Elimination Schemes.

Definition tree_obj (t : dirtree) : FileObject :=
  match t with Node o _ => o end.

Definition tree_children (t : dirtree) : list dirtree :=
  match t with Node _ cs => cs end.

(** Every entry strictly below the root, depth first. *)
Fixpoint descendants (t : dirtree) : list FileObject :=
  match t with
  | Node _ cs => flat_map (fun c => tree_obj c :: descendants c) cs
  end.

(** Modelled from the spec: [FileListing] of [filebrowser.base] is not part
    of this module. Section 4.2 step 1: the shallow enumeration yields the
    immediate children of the root, the recursive one the full subtree,
    depth first; step 2: the entries rejected by the exclusion predicate
    ([filter_func]) are left out. The ordering of step 5 is not modelled:
    the listings are kept in enumeration order. *)
Record FileListing : Type := mk_listing {
  fl_path : string;
  fl_filter_func : FileObject -> bool;
  fl_sorting_by : string;
  fl_sorting_order : string;
  fl_root : dirtree;
  results_total : option Z;
  results_current : option Z
}.

(** [filelisting.results_total = total;
     filelisting.results_current = current] *)
Definition set_results (fl : FileListing) (total current : Z) : FileListing :=
  mk_listing (fl_path fl) (fl_filter_func fl) (fl_sorting_by fl)
    (fl_sorting_order fl) (fl_root fl) (Some total) (Some current).

Definition files_listing_filtered (fl : FileListing) : list FileObject :=
  List.filter (fl_filter_func fl) (map tree_obj (tree_children (fl_root fl))).

Definition files_walk_filtered (fl : FileListing) : list FileObject :=
  List.filter (fl_filter_func fl) (descendants (fl_root fl)).

(** ** [int(str)] *)

Module PyInt.

(** ASCII characters for which [str.isspace] holds. *)
Definition is_space (c : ascii) : bool :=
  let n := nat_of_ascii c in
  ((9 <=? n)%nat && (n <=? 13)%nat) || ((28 <=? n)%nat && (n <=? 32)%nat).

Definition digit_value (c : ascii) : option Z :=
  let n := nat_of_ascii c in
  if (48 <=? n)%nat && (n <=? 57)%nat then Some (Z.of_nat n - 48) else None.

Fixpoint lstrip (s : string) : string :=
  match s with
  | EmptyString => EmptyString
  | String c s' => if is_space c then lstrip s' else s
  end.

Fixpoint rstrip (s : string) : string :=
  match s with
  | EmptyString => EmptyString
  | String c s' =>
      match rstrip s' with
      | EmptyString => if is_space c then EmptyString else String c EmptyString
      | r => String c r
      end
  end.

Inductive last_seen : Type := AtStart | AfterDigit | AfterUnderscore.

(** Digits, with single underscores allowed between two digits. *)
Fixpoint digits (s : string) (acc : Z) (last : last_seen) : option Z :=
  match s with
  | EmptyString =>
      match last with AfterDigit => Some acc | _ => None end
  | String c s' =>
      match digit_value c with
      | Some d => digits s' (10 * acc + d) AfterDigit
      | None =>
          if Ascii.eqb c "_"
          then match last with
               | AfterDigit => digits s' acc AfterUnderscore
               | _ => None
               end
          else None
      end
  end.

(** [int(s)] in base ten; [None] stands for [ValueError]. *)
Definition int (s : string) : option Z :=
  match rstrip (lstrip s) with
  | String "+" s' => digits s' 0 AtStart
  | String "-" s' => Z.opp <$> digits s' 0 AtStart
  | s' => digits s' 0 AtStart
  end.

End PyInt.

(** ** [django.core.paginator] *)

(** Modelled from Django's documented behaviour; [EmptyPage] and
    [PageNotAnInteger] are both subclasses of [InvalidPage]. *)
Module Paginator.

Section Pages.
Context {A : Type}.

Record t : Type := mk {
  object_list : list A;
  per_page : Z;
  orphans : Z;
  allow_empty_first_page : bool
}.

(** [Paginator(object_list, per_page)] *)
Definition new (object_list : list A) (per_page : Z) : t :=
  mk object_list per_page 0 true.

Record Page : Type := mk_page { page_object_list : list A; number : Z }.

Definition count (p : t) : Z := Z.of_nat (length (object_list p)).

(** [ceil(hits / per_page)] *)
Definition ceil_div (hits per_page : Z) : Z := - ((- hits) / per_page).

Definition num_pages (p : t) : result Z :=
  if (count p =? 0) && negb (allow_empty_first_page p) then Ok 0
  else
    let hits := Z.max 1 (count p - orphans p) in
    if per_page p =? 0 then Raise ZeroDivisionError
    else Ok (ceil_div hits (per_page p)).

Definition validate_number (p : t) (number : string) : result Z :=
  match PyInt.int number with
  | None => Raise PageNotAnInteger
  | Some n =>
      if n <? 1 then Raise EmptyPage
      else
        rbind (num_pages p) (fun np =>
        if np <? n then Raise EmptyPage else Ok n)
  end.

(** [l[bottom:top]] for [0 <= bottom]. *)
Definition slice (l : list A) (bottom top : Z) : list A :=
  take (Z.to_nat (top - bottom)) (drop (Z.to_nat bottom) l).

Definition page_of (p : t) (n : Z) : Page :=
  let bottom := (n - 1) * per_page p in
  let top := bottom + per_page p in
  let top := if count p <=? top + orphans p then count p else top in
  mk_page (slice (object_list p) bottom top) n.

(** [p.page(number)] *)
Definition page (p : t) (number : string) : result Page :=
  rbind (validate_number p number) (fun n => Ok (page_of p n)).

(** [p.page(p.num_pages)]: the argument is already an [int]. *)
Definition page_int (p : t) (n : Z) : result Page :=
  if n <? 1 then Raise EmptyPage
  else
    rbind (num_pages p) (fun np =>
    if np <? n then Raise EmptyPage else Ok (page_of p n)).

End Pages.
Arguments t A : clear implicits.
Arguments Page A : clear implicits.

End Paginator.

(** ** Settings read by the views ([filebrowser.settings]) *)

Record settings : Type := mk_settings {
  EXCLUDE : list string;
  VERSIONS_BASEDIR : string;
  (** the keys of the [VERSIONS] dict, in iteration order *)
  VERSIONS : list string;
  EXTENSION_LIST : list string;
  SEARCH_TRAVERSE : bool;
  LIST_PER_PAGE : Z;
  DEFAULT_SORTING_BY : string;
  DEFAULT_SORTING_ORDER : string;
  UPLOAD_TEMPDIR : string;
  OVERWRITE_EXISTING : bool;
  DEFAULT_PERMISSIONS : option Z
}.

(** ** [FileBrowserSite.browse] *)

Section Browse.
Variable E : re_engine.
Variable cfg : settings.
Variable clk : Clock.t.

Fixpoint compile_all (fl : re_flags) (exps : list string)
  : result (list (re_pattern E)) :=
  match exps with
  | [] => Ok []
  | exp :: rest =>
      rbind (re_compile E exp fl) (fun c =>
      rbind (compile_all fl rest) (fun cs => Ok (c :: cs)))
  end.

(** [(r'_%s(%s)$') % (k, '|'.join(EXTENSION_LIST))] *)
Definition version_exp (k : string) : string :=
  ("_" ++ k ++ "(" ++ Str.join "|" (EXTENSION_LIST cfg) ++ ")$")%string.

Definition build_filter_re : result (list (re_pattern E)) :=
  rbind (compile_all no_flags (EXCLUDE cfg)) (fun excl =>
  rbind (if truthy (VERSIONS_BASEDIR cfg) then Ok []
         else compile_all re_I (map version_exp (VERSIONS cfg)))
        (fun vers => Ok (excl ++ vers))).

Definition filter_browse (filter_re : list (re_pattern E)) (item : FileObject)
  : bool :=
  let filtered := Str.startswith (filename item) "." in
  let filtered :=
    fold_left (fun acc re_prefix =>
                 if re_search E re_prefix (filename item) then true else acc)
              filter_re filtered in
  if filtered then false else true.

(** [fileobject.date or 0] *)
Definition date_or_0 (f : FileObject) : Z :=
  match date f with
  | Some d => d
  | None => 0
  end.

(** The value of [append] at the end of one round of the loop. *)
Definition browse_append (filter_type filter_date filter_format : option string)
    (re_q : option (re_pattern E)) (fileobject : FileObject) : bool :=
  let append := false in
  let append :=
    if (negb (truthy_opt filter_type)
        || bool_decide (Some (filetype fileobject) = filter_type))
       && (negb (truthy_opt filter_date)
           || truthy (get_filterdate clk (default "" filter_date)
                                     (date_or_0 fileobject)))
       && (negb (truthy_opt filter_format)
           || Str.contains (default "" filter_format) (format fileobject))
    then true else append in
  let append :=
    match re_q with
    | Some r =>
        if negb (re_search E r (Str.lower (filename fileobject)))
        then false else append
    | None => append
    end in
  let append :=
    if String.eqb (filetype fileobject) "Folder" then true else append in
  append.

(** [for fileobject in listing: ... files.append(fileobject)] *)
Fixpoint browse_loop (filter_type filter_date filter_format : option string)
    (re_q : option (re_pattern E)) (listing files : list FileObject)
  : list FileObject :=
  match listing with
  | [] => files
  | fileobject :: rest =>
      browse_loop filter_type filter_date filter_format re_q rest
        (if browse_append filter_type filter_date filter_format re_q fileobject
         then files ++ [fileobject] else files)
  end.

(** [try: page = p.page(page_nr)
     except (EmptyPage, InvalidPage): page = p.page(p.num_pages)] *)
Definition browse_page (p : Paginator.t FileObject) (page_nr : string)
  : result (Paginator.Page FileObject) :=
  match Paginator.page p page_nr with
  | Ok pg => Ok pg
  | Raise EmptyPage | Raise PageNotAnInteger =>
      rbind (Paginator.num_pages p) (Paginator.page_int p)
  | Raise e => Raise e
  end.

(** What [browse] computes: the entries [p], [page], [filelisting] and
    [query] of the template context, and its local lists [listing] and
    [files]. The title, the settings and the breadcrumbs are left out. *)
Record browse_context : Type := mk_context {
  ctx_p : Paginator.t FileObject;
  ctx_page : Paginator.Page FileObject;
  ctx_filelisting : FileListing;
  ctx_listing : list FileObject;
  ctx_files : list FileObject;
  ctx_query : gmap string string
}.

(** [storage_view path] is what the storage holds below [path]. *)
Definition browse (storage_view : string -> dirtree) (directory : string)
    (GET : gmap string string) : result browse_context :=
  rbind build_filter_re (fun filter_re =>
  let query := GET in
  let path := Str.path_join directory (default "" (query !! "dir")) in
  let filelisting :=
    mk_listing path (filter_browse filter_re)
      (default (DEFAULT_SORTING_BY cfg) (query !! "o"))
      (default (DEFAULT_SORTING_ORDER cfg) (query !! "ot"))
      (storage_view path) None None in
  let files := [] in
  let listing :=
    if SEARCH_TRAVERSE cfg && truthy_opt (query !! "q")
    then files_walk_filtered filelisting
    else files_listing_filtered filelisting in
  let do_search := query !! "q" in
  rbind (if truthy_opt do_search
         then rbind (re_compile E (Str.lower (default "" (query !! "q"))) re_M)
                    (fun c => Ok (Some c))
         else Ok None)
        (fun re_q =>
  let filter_type := query !! "filter_type" in
  let filter_date := query !! "filter_date" in
  let filter_format := query !! "type" in
  let files :=
    browse_loop filter_type filter_date filter_format re_q listing files in
  let filelisting :=
    set_results filelisting (Z.of_nat (length listing))
                (Z.of_nat (length files)) in
  let p := Paginator.new files (LIST_PER_PAGE cfg) in
  let page_nr := default "1" (GET !! "p") in
  rbind (browse_page p page_nr) (fun page =>
  Ok (mk_context p page filelisting listing files query)))).

End Browse.

(** ** Insertion-ordered dictionaries keyed by strings *)

Module ODict.

Definition t (V : Type) : Type := list (string * V).

Section Ops.
Context {V : Type}.

Definition empty : t V := [].

(** [d.get(k)] *)
Fixpoint get (k : string) (d : t V) : option V :=
  match d with
  | [] => None
  | (k', v) :: d' => if String.eqb k' k then Some v else get k d'
  end.

(** [d[k] = v]: an existing key keeps its place. *)
Fixpoint set (k : string) (v : V) (d : t V) : t V :=
  match d with
  | [] => [(k, v)]
  | (k', v') :: d' =>
      if String.eqb k' k then (k, v) :: d' else (k', v') :: set k v d'
  end.

Fixpoint remove (k : string) (d : t V) : t V :=
  match d with
  | [] => []
  | (k', v') :: d' =>
      if String.eqb k' k then d' else (k', v') :: remove k d'
  end.

(** [del d[k]] *)
Definition del (k : string) (d : t V) : result (t V) :=
  match get k d with
  | Some _ => Ok (remove k d)
  | None => Raise (KeyError k)
  end.

(** [d[k]] *)
Definition subscript (k : string) (d : t V) : result V :=
  match get k d with
  | Some v => Ok v
  | None => Raise (KeyError k)
  end.

(** [list(d.items())] *)
Definition items (d : t V) : list (string * V) := d.

(** [d.copy()] *)
Definition copy (d : t V) : t V := d.

Definition keys (d : t V) : list string := map fst d.

(** [res.sort(key=lambda name_func: name_func[0])]: a stable sort on
    the names, compared with [<]. *)
Fixpoint sort_insert (x : string * V) (l : list (string * V))
  : list (string * V) :=
  match l with
  | [] => [x]
  | y :: l' =>
      if String.ltb (fst y) (fst x) then y :: sort_insert x l'
      else x :: y :: l'
  end.

Definition sort_by_name (l : list (string * V)) : list (string * V) :=
  foldr sort_insert [] l.

(** The order of two entries by name: at most, and strictly below. *)
Definition name_le (x y : string * V) : Prop :=
  String.leb (fst x) (fst y) = true.
Definition name_lt (x y : string * V) : Prop :=
  String.ltb (fst x) (fst y) = true.

End Ops.

End ODict.

(** ** The action registry of a site *)

(** An action is a Python function object; the registry reads and sets
    three of its attributes. [None] is a missing attribute. *)
Record action_obj : Type := mk_action {
  __name__ : string;
  short_description : option string;
  applies_to : option (FileObject -> bool)
}.

(** Actions are shared objects: a registry holds references into a heap. *)
Definition action_ref : Type := nat.
Definition heap : Type := action_ref -> action_obj.

Definition heap_set (h : heap) (a : action_ref) (o : action_obj) : heap :=
  fun r => if Nat.eqb r a then o else h r.

Record FileBrowserSite : Type := mk_site {
  site_name : option string;
  site_app_name : string;
  _actions : ODict.t action_ref;
  _global_actions : ODict.t action_ref
}.

(** [name or action.__name__] *)
Definition action_name (h : heap) (action : action_ref) (name : option string)
  : string :=
  if truthy_opt name then default "" name else __name__ (h action).

Definition add_action (action : action_ref) (name : option string)
    (hs : heap * FileBrowserSite) : heap * FileBrowserSite :=
  let '(h, self) := hs in
  let name := action_name h action name in
  let h :=
    match short_description (h action) with
    | Some _ => h
    | None =>
        heap_set h action
          (mk_action (__name__ (h action))
             (Some (Str.capitalize
                      (Str.replace_char "_" " " (__name__ (h action)))))
             (applies_to (h action)))
    end in
  let h :=
    match applies_to (h action) with
    | Some _ => h
    | None =>
        heap_set h action
          (mk_action (__name__ (h action)) (short_description (h action))
             (Some (fun x => true)))
    end in
  (h, mk_site (site_name self) (site_app_name self)
        (ODict.set name action (_actions self))
        (ODict.set name action (_global_actions self))).

Definition disable_action (name : string) (self : FileBrowserSite)
  : result FileBrowserSite :=
  rbind (ODict.del name (_actions self)) (fun d =>
  Ok (mk_site (site_name self) (site_app_name self) d (_global_actions self))).

Definition get_action (name : string) (self : FileBrowserSite)
  : result action_ref :=
  ODict.subscript name (_global_actions self).

(** The [actions] property. *)
Definition actions (self : FileBrowserSite) : list (string * action_ref) :=
  let res := ODict.items (_actions self) in
  ODict.sort_by_name res.

Fixpoint applicable_loop (h : heap) (fileobject : FileObject)
    (todo res : list (string * action_ref))
  : result (list (string * action_ref)) :=
  match todo with
  | [] => Ok res
  | (name, action) :: rest =>
      match applies_to (h action) with
      | None => Raise (AttributeError "applies_to")
      | Some applies =>
          applicable_loop h fileobject rest
            (if applies fileobject then res ++ [(name, action)] else res)
      end
  end.

Definition applicable_actions (h : heap) (self : FileBrowserSite)
    (fileobject : FileObject) : result (list (string * action_ref)) :=
  applicable_loop h fileobject (actions self) [].

(** [action.applies_to(fileobject)] for an action that has the attribute. *)
Definition action_applies (h : heap) (fileobject : FileObject)
    (entry : string * action_ref) : bool :=
  match applies_to (h (snd entry)) with
  | Some applies => applies fileobject
  | None => false
  end.

(** The registries a site can be in: as [__init__] leaves them, and after
    any further call of [add_action] or [disable_action] (a call of
    [disable_action] that raises leaves the site as it was). *)
Inductive reachable : heap * FileBrowserSite -> Prop :=
| reach_init (h : heap) (name : option string) (app_name : string) :
    reachable (h, mk_site name app_name ODict.empty (ODict.copy ODict.empty))
| reach_add (hs : heap * FileBrowserSite) (action : action_ref)
    (name : option string) :
    reachable hs -> reachable (add_action action name hs)
| reach_disable (h : heap) (self self' : FileBrowserSite) (name : string) :
    reachable (h, self) -> disable_action name self = Ok self' ->
    reachable (h, self').

(** What every reachable registry satisfies: the active names are
    distinct, every active action has its [applies_to], and an active name
    is bound to the same action in [_global_actions]. *)
Definition registry_inv (hs : heap * FileBrowserSite) : Prop :=
  List.NoDup (ODict.keys (_actions (snd hs)))
  /\ (forall n a, In (n, a) (_actions (snd hs)) ->
                  applies_to (fst hs a) <> None)
  /\ forall n a, ODict.get n (_actions (snd hs)) = Some a ->
                 ODict.get n (_global_actions (snd hs)) = Some a.

(** ** The site cache *)

Section SiteCache.
(** Whatever stands for a site object. *)
Context {Site : Type}.

Definition register_site (app_name : string) (site_name : option string)
    (site : Site) (_sites_cache : gmap string (gmap (option string) Site))
  : gmap string (gmap (option string) Site) :=
  let _sites_cache :=
    match _sites_cache !! app_name with
    | None => <[app_name := ∅]> _sites_cache
    | Some _ => _sites_cache
    end in
  <[app_name := <[site_name := site]> (default ∅ (_sites_cache !! app_name))]>
    _sites_cache.

(** [_sites_cache[app_name][site_name]] *)
Definition cache_lookup (app_name : string) (site_name : option string)
    (_sites_cache : gmap string (gmap (option string) Site)) : option Site :=
  _sites_cache !! app_name ≫= fun sites => sites !! site_name.

(** [app_dict] is [get_resolver(get_urlconf()).app_dict]: the names of
    the deployed instances of each application. *)
Definition get_site_dict (app_dict : gmap string (list (option string)))
    (app_name : string) (_sites_cache : gmap string (gmap (option string) Site))
  : result (gmap (option string) Site) :=
  match _sites_cache !! app_name with
  | None => Ok ∅
  | Some sites =>
      match app_dict !! app_name with
      | None => Raise (KeyError app_name)
      | Some deployed =>
          Ok (filter (fun kv => kv.1 ∈ deployed) sites)
      end
  end.

(** [FileBrowserSite.__init__]: the new site, with empty registries, and
    the cache in which [self] has been registered. *)
Definition FileBrowserSite_init (self : Site) (name : option string)
    (app_name : string) (_sites_cache : gmap string (gmap (option string) Site))
  : FileBrowserSite * gmap string (gmap (option string) Site) :=
  let _actions := ODict.empty in
  let _global_actions := ODict.copy _actions in
  (mk_site name app_name _actions _global_actions,
   register_site app_name name self _sites_cache).

End SiteCache.

(** ** The storage backend *)

(** The calls [_upload_file] makes on [site.storage] and on the file
    system behind it. A backend call may raise and may change the backend
    either way. [storage_read] (the content of a file; [None] for a
    missing name or a directory) is not called by the view: it is what the
    statements about stored content observe. *)
Class Storage (St : Type) : Type := {
  storage_exists : St -> string -> bool;
  storage_isdir : St -> string -> bool;
  (** [storage.save(name, content)]: the name actually used *)
  storage_save : string -> string -> St -> result string * St;
  (** [storage.move(old, new, allow_overwrite)] *)
  storage_move : string -> string -> bool -> St -> result unit * St;
  (** [os.chmod(path, mode)] *)
  os_chmod : string -> Z -> St -> result unit * St;
  storage_read : St -> string -> option string
}.

(** Calls and signals, in the order they happen. *)
Inductive effect : Type :=
| EvSignal (signal : string) (path : string) (file : string)
| EvSave (name : string) (content : string)
| EvMove (old new : string) (allow_overwrite : bool)
| EvChmod (path : string) (mode : Z).

Record world (St : Type) : Type := mk_world {
  store : St;
  trace : list effect
}.
Arguments mk_world {St} store trace.
Arguments store {St} w.
Arguments trace {St} w.

(** Computations that read and change the world and may raise. *)
Definition M (St A : Type) : Type := world St -> result A * world St.

Definition ret {St A : Type} (a : A) : M St A := fun w => (Ok a, w).

Definition bind {St A B : Type} (m : M St A) (k : A -> M St B) : M St B :=
  fun w =>
    match m w with
    | (Ok a, w') => k a w'
    | (Raise e, w') => (Raise e, w')
    end.

Declare Scope upload_scope.
Delimit Scope upload_scope with upload.
Notation "x <- m ;; k" := (bind m (fun x => k))
  (at level 100, m at next level, right associativity) : upload_scope.
Notation "m ;;; k" := (bind m (fun _ => k))
  (at level 100, right associativity) : upload_scope.

Definition log {St : Type} (ev : effect) : M St unit :=
  fun w => (Ok tt, mk_world (store w) (trace w ++ [ev])).

(** Run a backend call, recording it first. *)
Definition call {St A : Type} (ev : effect) (f : St -> result A * St) : M St A :=
  fun w =>
    let '(r, st') := f (store w) in
    (r, mk_world st' (trace w ++ [ev])).

(** ** [_upload_file] *)

(** The uploaded file of [request.FILES]. The object keeps the name that
    is assigned to it (Django's [UploadedFile] also reduces an assigned
    name to a base name of at most 255 characters). *)
Record UploadedFile : Type := mk_upload { name : string; content : string }.

Record request : Type := mk_request {
  method : string;
  GET : gmap string string;
  FILES : list UploadedFile
}.

(** The dictionary passed to [json.dumps]; [temp_filename] is [None] when
    the key is absent and [Some None] when its value is [None]. *)
Record ret_json : Type := mk_json {
  success : bool;
  json_filename : string;
  temp_filename : option (option string)
}.

Inductive response : Type :=
| HttpResponseBadRequest (message : string)
| HttpResponse (body : ret_json) (content_type : option string).

Section Upload.
Context {St : Type} `{Storage St}.
Variable cfg : settings.
(** [site.directory] *)
Variable directory : string.
(** [filebrowser.utils.convert_filename] *)
Variable convert_filename : string -> string.
(** [fb_uploadurl_re.sub('', folder)], for the pattern built from the
    reversed upload URL *)
Variable strip_upload_url : string -> string.
(** [FileObject(path, site=self).path_full] *)
Variable path_full : string -> string.

(** Modelled from the spec: [FileObject] of [filebrowser.base] is not
    part of this module; its [filename] is the base name of its path
    (section 3, "name (base name, derived)"). *)
Definition FileObject_filename (path : string) : string := Str.basename path.

(** Listeners are not modelled: sending a signal is recorded only. *)
Definition send (signal path file : string) : M St unit :=
  log (EvSignal signal path file).

Definition handle_file_upload (path : string) (file : UploadedFile)
  : M St string :=
  let file_path := Str.path_join path (name file) in
  call (EvSave file_path (content file))
       (storage_save file_path (content file)).

(** [if DEFAULT_PERMISSIONS is not None:
       os.chmod(f.path_full, DEFAULT_PERMISSIONS)] *)
Definition set_permissions (f : string) : M St unit :=
  match DEFAULT_PERMISSIONS cfg with
  | Some mode =>
      call (EvChmod (path_full f) mode) (os_chmod (path_full f) mode)
  | None => ret tt
  end.

Definition upload_to_temp (folder temporary : string) : bool :=
  String.eqb folder (UPLOAD_TEMPDIR cfg) && String.eqb temporary "true".

(** The values [_upload_file] computes for [folder], [path] and
    [file_path], named for the statements about it. *)
Definition upload_folder (req : request) : string :=
  strip_upload_url (default "" (GET req !! "folder")).

Definition upload_path (req : request) : string :=
  if upload_to_temp (upload_folder req) (default "" (GET req !! "temporary"))
  then upload_folder req
  else Str.path_join directory (upload_folder req).

Definition candidate_path (req : request) (filedata : UploadedFile)
  : string :=
  Str.path_join (upload_path req) (convert_filename (name filedata)).

(** The rebinding of [filedata.name] in the else branch is left out:
    [filedata] is not read after it. *)
Definition _upload_file (req : request) : M St (option response) :=
  if String.eqb (method req) "POST" then
    let folder := default "" (GET req !! "folder") in
    let temporary := default "" (GET req !! "temporary") in
    let temp_filename := None in
    match FILES req with
    | [] =>
        ret (Some (HttpResponseBadRequest
                     "Invalid request! No files included."))
    | _ :: _ :: _ =>
        ret (Some (HttpResponseBadRequest
                     "Invalid request! Multiple files included."))
    | [filedata] =>
        let folder := strip_upload_url folder in
        let path :=
          if upload_to_temp folder temporary then folder
          else Str.path_join directory folder in
        let file_name := convert_filename (name filedata) in
        let filedata := mk_upload file_name (content filedata) in
        let file_path := Str.path_join path file_name in
        fun w =>
        let file_already_exists := storage_exists (store w) file_path in
        let temp_filename :=
          if upload_to_temp folder temporary
          then Some (Str.path_join folder file_name) else temp_filename in
        if file_already_exists && storage_isdir (store w) file_path then
          ret (Some (HttpResponse (mk_json false file_name None) None)) w
        else
          (send "filebrowser_pre_upload" folder (name filedata) ;;;
           uploadedfile <- handle_file_upload path filedata ;;
           f <- (if file_already_exists && OVERWRITE_EXISTING cfg then
                   call (EvMove uploadedfile file_path true)
                        (storage_move uploadedfile file_path true) ;;;
                   ret file_path
                 else ret uploadedfile) ;;
           set_permissions f ;;;
           send "filebrowser_post_upload" folder f ;;;
           ret (Some (HttpResponse
                        (mk_json true (FileObject_filename f)
                                 (Some temp_filename))
                        (Some "application/json"))))%upload w
    end
  else ret None.

(** The trace of an upload once the pre-upload signal is sent and the save
    is asked for. *)
Definition saved_trace (req : request) (filedata : UploadedFile)
    (w : world St) : list effect :=
  trace w
  ++ [EvSignal "filebrowser_pre_upload" (upload_folder req)
        (convert_filename (name filedata));
      EvSave (candidate_path req filedata) (content filedata)].

Definition success_response (req : request) (filedata : UploadedFile)
    (f : string) : response :=
  HttpResponse
    (mk_json true (FileObject_filename f)
       (Some (if upload_to_temp (upload_folder req)
                   (default "" (GET req !! "temporary"))
              then Some (Str.path_join (upload_folder req)
                           (convert_filename (name filedata)))
              else None)))
    (Some "application/json").

End Upload.

(** Two properties a backend may have. [save] never writes over a name in
    use (section 4.4 step 4 leaves this to the backend), and [chmod]
    changes no content. *)
Definition save_never_overwrites (St : Type) `{Storage St} : Prop :=
  forall (name content : string) (st st' : St) (r : result string),
    storage_save name content st = (r, st') ->
    forall p, storage_exists st p = true ->
              storage_read st' p = storage_read st p.

Definition chmod_keeps_content (St : Type) `{Storage St} : Prop :=
  forall (path : string) (mode : Z) (st st' : St) (r : result unit),
    os_chmod path mode st = (r, st') ->
    forall p, storage_read st' p = storage_read st p.

(** ** An in-memory backend *)

(** A backend in the manner of Django's [FileSystemStorage], used to run
    the upload view on concrete inputs. [save] never writes over an
    existing name: a taken name gets the suffix "_1" (Django draws a random
    suffix), and the call raises when that name is taken as well. *)
Module MemStorage.

Inductive node : Type :=
| Dir
| File (content : string).

Definition t : Type := gmap string node.

Definition exists_ (st : gmap string node) (p : string) : bool :=
  bool_decide (is_Some (st !! p)).

Definition isdir (st : gmap string node) (p : string) : bool :=
  match st !! p with
  | Some Dir => true
  | _ => false
  end.

Definition get_available_name (st : gmap string node) (p : string)
  : option string :=
  if exists_ st p
  then (if exists_ st (p ++ "_1") then None else Some (p ++ "_1")%string)
  else Some p.

Definition save (p content : string) (st : gmap string node)
  : result string * gmap string node :=
  match get_available_name st p with
  | Some q => (Ok q, <[q := File content]> st)
  | None => (Raise (StorageError p), st)
  end.

Definition move (old new : string) (allow_overwrite : bool)
    (st : gmap string node) : result unit * gmap string node :=
  match st !! old with
  | None => (Raise (StorageError old), st)
  | Some n =>
      if exists_ st new && negb allow_overwrite
      then (Raise (StorageError new), st)
      else (Ok tt, <[new := n]> (delete old st))
  end.

Definition chmod (p : string) (mode : Z) (st : gmap string node)
  : result unit * gmap string node :=
  (Ok tt, st).

Definition read (st : gmap string node) (p : string) : option string :=
  match st !! p with
  | Some (File c) => Some c
  | _ => None
  end.

#[global] Instance storage : Storage (gmap string node) := {
  storage_exists := exists_;
  storage_isdir := isdir;
  storage_save := save;
  storage_move := move;
  os_chmod := chmod;
  storage_read := read
}.

End MemStorage.

(** The same backend on a medium that refuses to rename: [move] raises
    [OSError] and changes nothing. *)
Module NoMoveStorage.

Record t : Type := mk { files : gmap string MemStorage.node }.

Definition lift {A : Type} (r : result A * gmap string MemStorage.node)
  : result A * t :=
  (fst r, mk (snd r)).

Definition move (old new : string) (allow_overwrite : bool) (st : t)
  : result unit * t :=
  (Raise (OSError old), st).

#[global] Instance storage : Storage t := {
  storage_exists st := MemStorage.exists_ (files st);
  storage_isdir st := MemStorage.isdir (files st);
  storage_save p content st := lift (MemStorage.save p content (files st));
  storage_move := move;
  os_chmod p mode st := lift (MemStorage.chmod p mode (files st));
  storage_read st := MemStorage.read (files st)
}.

End NoMoveStorage.

(** ** [get_breadcrumbs] *)

(** [s.split(sep)] for a one-character separator: the pieces between the
    separators, of which there is always at least one. *)
Fixpoint split_char (sep : ascii) (s : string) : list string :=
  match s with
  | EmptyString => [EmptyString]
  | String c s' =>
      if Ascii.eqb c sep then EmptyString :: split_char sep s'
      else match split_char sep s' with
           | piece :: pieces => String c piece :: pieces
           | [] => [String c EmptyString]
           end
  end.

(** [for item in ...: dir_query = os.path.join(dir_query, item);
     breadcrumbs.append([item, dir_query])] *)
Fixpoint breadcrumbs_loop (items : list string) (dir_query : string)
    (breadcrumbs : list (string * string)) : list (string * string) :=
  match items with
  | [] => breadcrumbs
  | item :: rest =>
      let dir_query := Str.path_join dir_query item in
      breadcrumbs_loop rest dir_query (breadcrumbs ++ [(item, dir_query)])
  end.

(** [os.sep] is "/". *)
Definition get_breadcrumbs (query : gmap string string) (path : string)
  : list (string * string) :=
  let breadcrumbs := [] in
  let dir_query := "" in
  if truthy path
  then breadcrumbs_loop (split_char "/" path) dir_query breadcrumbs
  else breadcrumbs.

(** A path segment: not empty and without a slash. *)
Definition segment (s : string) : Prop :=
  s <> "" /\ Str.contains "/" s = false.

(** ** [get_default_site] *)

(** What a call that may also raise [IndexError] comes to. *)
Inductive outcome (A : Type) : Type :=
| Returned (a : A)
| Raised (e : exn)
| RaisedIndexError.
Arguments Returned {A} a.
Arguments Raised {A} e.
Arguments RaisedIndexError {A}.

(** The key shown by a [KeyError] for a site name. *)
Definition name_key (site_name : option string) : string :=
  default "None" site_name.

(** [app_dict] is [get_resolver(get_urlconf()).app_dict]. The site is
    looked up with [get_site_dict()], that is, among the sites of the
    application "filebrowser", whatever [app_name] is. *)
Definition get_default_site {Site : Type}
    (app_dict : gmap string (list (option string))) (app_name : string)
    (_sites_cache : gmap string (gmap (option string) Site)) : outcome Site :=
  let name := Some "filebrowser" in
  match app_dict !! app_name with
  | None => Raised (KeyError app_name)
  | Some app_list =>
      let chosen :=
        if bool_decide (name ∈ app_list) then Returned name
        else match app_list with
             | first :: _ => Returned first
             | [] => RaisedIndexError
             end in
      match chosen with
      | Returned name =>
          match get_site_dict app_dict "filebrowser" _sites_cache with
          | Ok sites =>
              match sites !! name with
              | Some site => Returned site
              | None => Raised (KeyError (name_key name))
              end
          | Raise e => Raised e
          end
      | Raised e => Raised e
      | RaisedIndexError => RaisedIndexError
      end
  end.

(** ** [FileBrowserSite.delete_confirm] *)

(** Modelled from the spec: [files_walk_total] of [filebrowser.base] is not
    part of this module; it is the recursive enumeration of section 4.2
    step 1 with no exclusion applied. *)
Definition files_walk_total (fl : FileListing) : list FileObject :=
  descendants (fl_root fl).

(** The entries [fileobject], [filelisting] and [additional_files] of the
    template context. *)
Record delete_confirm_context : Type := mk_delete_confirm {
  dc_fileobject : FileObject;
  dc_filelisting : option (list FileObject);
  dc_additional_files : option Z
}.

(** [storage_view path] is what the storage holds at [path]: the file
    object there and the entries below it. *)
Definition delete_confirm (cfg : settings) (storage_view : string -> dirtree)
    (directory : string) (GET : gmap string string) : delete_confirm_context :=
  let query := GET in
  let path := Str.path_join directory (default "" (query !! "dir")) in
  let fileobject :=
    tree_obj (storage_view
                (Str.path_join path (default "" (query !! "filename")))) in
  if String.eqb (filetype fileobject) "Folder" then
    let filelisting :=
      mk_listing (Str.path_join path (filename fileobject)) (fun _ => true)
        (default "filename" (query !! "o"))
        (default (DEFAULT_SORTING_ORDER cfg) (query !! "ot"))
        (storage_view (Str.path_join path (filename fileobject))) None None in
    let filelisting := files_walk_total filelisting in
    if 100 <? Z.of_nat (length filelisting)
    then mk_delete_confirm fileobject (Some (take 100 filelisting))
           (Some (Z.of_nat (length filelisting) - 100))
    else mk_delete_confirm fileobject (Some filelisting) None
  else mk_delete_confirm fileobject None None.

(** ** Histories of a registry *)

(** One call of [add_action], or one call of [disable_action] that
    returns. *)
Inductive registry_step
  : heap * FileBrowserSite -> heap * FileBrowserSite -> Prop :=
| step_add (hs : heap * FileBrowserSite) (action : action_ref)
    (name : option string) :
    registry_step hs (add_action action name hs)
| step_disable (h : heap) (self self' : FileBrowserSite) (name : string) :
    disable_action name self = Ok self' ->
    registry_step (h, self) (h, self').

(** ** What the specification calls a case-insensitive substring match *)

Definition ci_substring (q name : string) : bool :=
  Str.contains (Str.lower q) (Str.lower name).

(** An engine reads a pattern without special characters literally: the
    pattern compiles, and searching for it is searching for a substring. *)
Definition literal_engine (E : re_engine) : Prop :=
  forall p : string,
    ReFragment.plain p = true ->
    exists c,
      re_compile E p re_M = Ok c
      /\ forall s, re_search E c s = Str.contains p s.

(** ** Sample data *)

Module Sample.

Definition cfg : settings :=
  mk_settings [] "" [] ["jpg"; "png"] true 10 "date" "desc"
    "_filebrowser_temp" false None.

Definition clk : Clock.t := Clock.mk 1709251199 (Clock.mk_tm 2024 2 29).

Definition folder (n : string) : FileObject :=
  mk_file n "Folder" (Some 1709251199) "".

Definition document (n : string) : FileObject :=
  mk_file n "Document" (Some 1709251199) "file".

Definition root : FileObject := folder "uploads".

(** uploads/a/b/c/Report.pdf, uploads/abc and uploads/.hidden *)
Definition tree : dirtree :=
  Node root
    [Node (folder "a")
       [Node (folder "b")
          [Node (folder "c") [Node (document "Report.pdf") []]]];
     Node (document "abc") [];
     Node (document ".hidden") []].

Definition storage_view (path : string) : dirtree := tree.

Definition query (kvs : list (string * string)) : gmap string string :=
  list_to_map kvs.

(** Three actions fresh from their module: no attribute set yet. *)
Definition heap0 : heap :=
  fun r =>
    match r with
    | O => mk_action "flip_horizontal" None None
    | S O => mk_action "rotate_180" None None
    | _ => mk_action "flip_vertical" None
             (Some (fun f => String.eqb (filetype f) "Image"))
    end.

Definition site0 : FileBrowserSite :=
  mk_site (Some "filebrowser") "filebrowser" ODict.empty
    (ODict.copy ODict.empty).

(** A store with the file uploads/report.pdf and the directory
    uploads/archive. *)
Definition store0 : gmap string MemStorage.node :=
  <["uploads/report.pdf" := MemStorage.File "old"]>
    (<["uploads/archive" := MemStorage.Dir]> ∅).

Definition world0 : world (gmap string MemStorage.node) := mk_world store0 [].

Definition post (file : UploadedFile) : request :=
  mk_request "POST" ∅ [file].

Definition overwriting : settings :=
  mk_settings [] "" [] ["jpg"; "png"] true 10 "date" "desc"
    "_filebrowser_temp" true (Some 420).

Definition numbered (n : nat) : list FileObject :=
  map (fun i => mk_file (String (ascii_of_nat (64 + i)) "") "Document" None "")
      (seq 1 n).

End Sample.

(** ** Properties *)

(** *** Calendar *)

Example gmtime_epoch : Clock.gmtime 0 = Clock.mk_tm 1970 1 1.
Proof. reflexivity. Qed.

Example gmtime_leap_day : Clock.gmtime 1709251199 = Clock.mk_tm 2024 2 29.
Proof. reflexivity. Qed.

Example gmtime_day_after_leap : Clock.gmtime 1709251200 = Clock.mk_tm 2024 3 1.
Proof. reflexivity. Qed.

Example gmtime_before_epoch : Clock.gmtime (-1) = Clock.mk_tm 1969 12 31.
Proof. reflexivity. Qed.

Example gmtime_century : Clock.gmtime 4107542400 = Clock.mk_tm 2100 3 1.
Proof. reflexivity. Qed.

Lemma civil_month_day_range (days : Z) :
  1 <= Clock.tm_mon (Clock.civil_from_days days) <= 12
  /\ 1 <= Clock.tm_mday (Clock.civil_from_days days) <= 31.
Proof.
  unfold Clock.civil_from_days; cbn [Clock.tm_mon Clock.tm_mday].
  set (z := days + 719468).
  set (era := z / 146097).
  set (doe := z - era * 146097).
  assert (Hdoe : 0 <= doe < 146097).
  { subst doe era. pose proof (Z.mod_pos_bound z 146097 ltac:(lia)).
    rewrite Z.mod_eq in * by lia. lia. }
  clearbody doe. clear z era.
  set (yoe := (doe - doe / 1460 + doe / 36524 - doe / 146096) / 365).
  set (doy := doe - (365 * yoe + yoe / 4 - yoe / 100)).
  assert (Hdoy : 0 <= doy <= 365).
  { subst doy yoe. Z.to_euclidean_division_equations. lia. }
  clearbody doy. clear yoe.
  set (mp := (5 * doy + 2) / 153).
  assert (Hmp : 0 <= mp <= 11).
  { subst mp. Z.to_euclidean_division_equations. lia. }
  split.
  - destruct (mp <? 10) eqn:Hlt; [apply Z.ltb_lt in Hlt | apply Z.ltb_ge in Hlt];
      lia.
  - subst mp. Z.to_euclidean_division_equations. lia.
Qed.

(** *** The date filter *)

(** [get_filterdate] answers ['true'] or [''], nothing else. *)
Lemma get_filterdate_values (clk : Clock.t) (filter_date : string) (t : Z) :
  get_filterdate clk filter_date t = "true"
  \/ get_filterdate clk filter_date t = "".
Proof.
  unfold get_filterdate.
  repeat match goal with
         | |- context [if ?b then _ else _] => destruct b; auto
         end.
Qed.

Lemma truthy_true_iff (s : string) : truthy s = true <-> s <> "".
Proof.
  unfold truthy. rewrite negb_true_iff.
  split.
  - intros Hne ->. discriminate.
  - intros Hne. apply String.eqb_neq. exact Hne.
Qed.

Lemma truthy_if_true (b : bool) :
  truthy (if b then "true" else "") = true <-> b = true.
Proof. destruct b; cbn; intuition discriminate. Qed.

(** C4: each recognised bucket of the date filter passes exactly on its
    window: today on equal UTC year, month and day of the timestamp and
    local date, thismonth from now - 2592000 seconds on, thisyear on equal
    years, past7days from now - 604800 seconds on, and the empty bucket
    always. *)
Theorem get_filterdate_buckets (clk : Clock.t) (t : Z) :
  (truthy (get_filterdate clk "today" t) = true
   <-> Clock.tm_year (Clock.gmtime t) = Clock.tm_year (Clock.localtime clk)
       /\ Clock.tm_mon (Clock.gmtime t) = Clock.tm_mon (Clock.localtime clk)
       /\ Clock.tm_mday (Clock.gmtime t) = Clock.tm_mday (Clock.localtime clk))
  /\ (truthy (get_filterdate clk "thismonth" t) = true
      <-> Clock.time clk - 2592000 <= t)
  /\ (truthy (get_filterdate clk "thisyear" t) = true
      <-> Clock.tm_year (Clock.gmtime t) = Clock.tm_year (Clock.localtime clk))
  /\ (truthy (get_filterdate clk "past7days" t) = true
      <-> Clock.time clk - 604800 <= t)
  /\ truthy (get_filterdate clk "" t) = true.
Proof.
  unfold get_filterdate; cbn [String.eqb Ascii.eqb Bool.eqb andb].
  rewrite !truthy_if_true.
  rewrite !andb_true_iff, !Z.eqb_eq, !Z.leb_le.
  intuition reflexivity.
Qed.

Example filterdate_today_now :
  get_filterdate (Clock.mk 1709251199 (Clock.mk_tm 2024 2 29)) "today" 1709251199
  = "true".
Proof. reflexivity. Qed.

Example filterdate_today_year_ago :
  get_filterdate (Clock.mk 1709251199 (Clock.mk_tm 2024 2 29)) "today"
    (1709251199 - 31536000) = "".
Proof. reflexivity. Qed.

Lemma get_filterdate_unknown_bucket (clk : Clock.t) (filter_date : string)
    (t : Z) :
  filter_date <> "today" -> filter_date <> "thismonth" ->
  filter_date <> "thisyear" -> filter_date <> "past7days" ->
  filter_date <> "" ->
  get_filterdate clk filter_date t = "".
Proof.
  intros H1 H2 H3 H4 H5. unfold get_filterdate.
  apply String.eqb_neq in H1, H2, H3, H4, H5.
  rewrite H1, H2, H3, H4, H5. reflexivity.
Qed.

(** *** The filter loop of [browse] *)

Section BrowseFacts.
Variable E : re_engine.
Variable cfg : settings.
Variable clk : Clock.t.

Lemma browse_loop_filter (ft fd ff : option string)
    (re_q : option (re_pattern E)) (listing files : list FileObject) :
  browse_loop E clk ft fd ff re_q listing files
  = files ++ List.filter (browse_append E clk ft fd ff re_q) listing.
Proof.
  revert files. induction listing as [| f rest IH]; intros files; cbn.
  - now rewrite app_nil_r.
  - rewrite IH. destruct (browse_append E clk ft fd ff re_q f); cbn.
    + now rewrite <- app_assoc.
    + reflexivity.
Qed.

Lemma browse_append_folder (ft fd ff : option string)
    (re_q : option (re_pattern E)) (f : FileObject) :
  filetype f = "Folder" -> browse_append E clk ft fd ff re_q f = true.
Proof.
  intros Hf. unfold browse_append. rewrite Hf. reflexivity.
Qed.

(** With a date bucket that [get_filterdate] rejects, only folders pass. *)
Lemma browse_append_date_rejected (ft ff : option string) (fd : string)
    (re_q : option (re_pattern E)) (f : FileObject) :
  fd <> "" ->
  get_filterdate clk fd (date_or_0 f) = "" ->
  browse_append E clk ft (Some fd) ff re_q f = is_folder f.
Proof.
  intros Hne Hrej. unfold browse_append, is_folder.
  cbn [default from_option id truthy_opt].
  rewrite Hrej.
  apply truthy_true_iff in Hne. rewrite Hne. cbn [negb orb truthy String.eqb].
  rewrite andb_false_r. cbn [andb].
  destruct re_q as [r |].
  - destruct (negb (re_search E r (Str.lower (filename f))));
      destruct (String.eqb (filetype f) "Folder"); reflexivity.
  - destruct (String.eqb (filetype f) "Folder"); reflexivity.
Qed.

(** The listing the loop of [browse] runs over. *)
Lemma browse_ok_inv (storage_view : string -> dirtree) (directory : string)
    (GET : gmap string string) (ctx : browse_context) :
  browse E cfg clk storage_view directory GET = Ok ctx ->
  exists filter_re re_q,
    build_filter_re E cfg = Ok filter_re
    /\ (if truthy_opt (GET !! "q")
        then exists c,
               re_compile E (Str.lower (default "" (GET !! "q"))) re_M = Ok c
               /\ re_q = Some c
        else re_q = None)
    /\ let path := Str.path_join directory (default "" (GET !! "dir")) in
       let fl := mk_listing path (filter_browse E filter_re)
                   (default (DEFAULT_SORTING_BY cfg) (GET !! "o"))
                   (default (DEFAULT_SORTING_ORDER cfg) (GET !! "ot"))
                   (storage_view path) None None in
       ctx_listing ctx
       = (if SEARCH_TRAVERSE cfg && truthy_opt (GET !! "q")
          then files_walk_filtered fl else files_listing_filtered fl)
       /\ ctx_files ctx
          = List.filter
              (browse_append E clk (GET !! "filter_type")
                 (GET !! "filter_date") (GET !! "type") re_q)
              (ctx_listing ctx)
       /\ ctx_filelisting ctx
          = set_results fl (Z.of_nat (length (ctx_listing ctx)))
              (Z.of_nat (length (ctx_files ctx)))
       /\ ctx_p ctx = Paginator.new (ctx_files ctx) (LIST_PER_PAGE cfg)
       /\ browse_page (ctx_p ctx) (default "1" (GET !! "p")) = Ok (ctx_page ctx).
Proof.
  unfold browse. intros Hb.
  destruct (build_filter_re E cfg) as [filter_re | e] eqn:Hre; cbn in Hb;
    [| discriminate].
  destruct (truthy_opt (GET !! "q")) eqn:Hq.
  - destruct (re_compile E _ re_M) as [c | e] eqn:Hc; cbn in Hb;
      [| discriminate].
    rewrite browse_loop_filter in Hb. cbn [app] in Hb.
    destruct (browse_page _ _) as [pg | e] eqn:Hpg; cbn in Hb; [| discriminate].
    injection Hb as <-. cbn.
    exists filter_re, (Some c). repeat split; eauto.
  - cbn in Hb. rewrite browse_loop_filter in Hb. cbn [app] in Hb.
    destruct (browse_page _ _) as [pg | e] eqn:Hpg; cbn in Hb; [| discriminate].
    injection Hb as <-. cbn.
    exists filter_re, None. repeat split; eauto.
Qed.

End BrowseFacts.

(** *** Pagination *)

Section PaginatorFacts.
Context {A : Type}.
Implicit Types (l : list A) (pp n : Z).

Lemma ceil_div_bounds (hits pp : Z) :
  0 < pp -> 1 <= hits ->
  1 <= Paginator.ceil_div hits pp
  /\ (Paginator.ceil_div hits pp - 1) * pp < hits
  /\ hits <= Paginator.ceil_div hits pp * pp.
Proof.
  intros Hpp Hh. unfold Paginator.ceil_div.
  pose proof (Z.div_mod (- hits) pp ltac:(lia)) as Hdm.
  pose proof (Z.mod_pos_bound (- hits) pp Hpp) as Hmod.
  nia.
Qed.

Lemma num_pages_new l pp :
  0 < pp ->
  Paginator.num_pages (Paginator.new l pp)
  = Ok (Paginator.ceil_div (Z.max 1 (Z.of_nat (length l))) pp).
Proof.
  intros Hpp. unfold Paginator.num_pages, Paginator.new, Paginator.count; cbn.
  rewrite andb_false_r.
  destruct (pp =? 0) eqn:Hz; [apply Z.eqb_eq in Hz; lia |].
  now rewrite Z.sub_0_r.
Qed.

Lemma num_pages_empty pp :
  0 < pp -> Paginator.num_pages (Paginator.new (@nil A) pp) = Ok 1.
Proof.
  intros Hpp. rewrite num_pages_new by assumption.
  change (Z.max 1 (Z.of_nat (length (@nil A)))) with 1.
  f_equal. pose proof (ceil_div_bounds 1 pp Hpp ltac:(lia)) as (H1 & H2 & H3).
  set (c := Paginator.ceil_div 1 pp) in *. nia.
Qed.

(** The last page holds everything from its first item to the end. *)
Lemma page_of_last l pp :
  0 < pp ->
  let np := Paginator.ceil_div (Z.max 1 (Z.of_nat (length l))) pp in
  Paginator.page_of (Paginator.new l pp) np
  = Paginator.mk_page (drop (Z.to_nat ((np - 1) * pp)) l) np.
Proof.
  intros Hpp np.
  pose proof (ceil_div_bounds (Z.max 1 (Z.of_nat (length l))) pp Hpp
                ltac:(lia)) as (Hnp1 & Hlo & Hhi).
  fold np in Hnp1, Hlo, Hhi.
  unfold Paginator.page_of, Paginator.new, Paginator.count; cbn.
  rewrite Z.add_0_r.
  destruct (Z.of_nat (length l) <=? (np - 1) * pp + pp) eqn:Hle;
    [| apply Z.leb_gt in Hle; lia].
  f_equal. unfold Paginator.slice.
  apply take_ge. rewrite length_drop. lia.
Qed.

Lemma page_of_empty pp n :
  Paginator.page_of (Paginator.new (@nil A) pp) n = Paginator.mk_page [] n.
Proof.
  unfold Paginator.page_of, Paginator.slice; cbn.
  now rewrite drop_nil, take_nil.
Qed.

Lemma page_int_valid l pp n :
  0 < pp ->
  1 <= n <= Paginator.ceil_div (Z.max 1 (Z.of_nat (length l))) pp ->
  Paginator.page_int (Paginator.new l pp) n
  = Ok (Paginator.page_of (Paginator.new l pp) n).
Proof.
  intros Hpp Hn. unfold Paginator.page_int.
  destruct (n <? 1) eqn:H1; [apply Z.ltb_lt in H1; lia |].
  rewrite num_pages_new by assumption. cbn [rbind].
  destruct (_ <? n) eqn:H2; [apply Z.ltb_lt in H2; lia | reflexivity].
Qed.

(** [p.page(page_nr)] either returns the requested page or raises one of
    the two exceptions that [browse] catches. *)
Lemma page_cases l pp (page_nr : string) :
  0 < pp ->
  let p := Paginator.new l pp in
  let np := Paginator.ceil_div (Z.max 1 (Z.of_nat (length l))) pp in
  match PyInt.int page_nr with
  | None => Paginator.page p page_nr = Raise PageNotAnInteger
  | Some n =>
      if (n <? 1) || (np <? n)
      then Paginator.page p page_nr = Raise EmptyPage
      else Paginator.page p page_nr = Ok (Paginator.page_of p n)
  end.
Proof.
  intros Hpp p np. unfold Paginator.page, Paginator.validate_number.
  destruct (PyInt.int page_nr) as [n |]; [| reflexivity].
  destruct (n <? 1); [reflexivity |].
  unfold p. rewrite num_pages_new by assumption. cbn [rbind orb].
  fold np. destruct (np <? n); reflexivity.
Qed.

End PaginatorFacts.

(** The page [browse] hands to the template. *)
Lemma browse_page_new (files : list FileObject) (pp : Z) (page_nr : string) :
  0 < pp ->
  let p := Paginator.new files pp in
  let np := Paginator.ceil_div (Z.max 1 (Z.of_nat (length files))) pp in
  browse_page p page_nr
  = Ok (match PyInt.int page_nr with
        | None => Paginator.page_of p np
        | Some n =>
            if (n <? 1) || (np <? n) then Paginator.page_of p np
            else Paginator.page_of p n
        end).
Proof.
  intros Hpp p np. unfold browse_page.
  pose proof (page_cases files pp page_nr Hpp) as Hc. cbv zeta in Hc.
  fold p np in Hc.
  pose proof (ceil_div_bounds (Z.max 1 (Z.of_nat (length files))) pp Hpp
                ltac:(lia)) as (Hnp1 & _).
  fold np in Hnp1.
  assert (Hlast : rbind (Paginator.num_pages p) (Paginator.page_int p)
                  = Ok (Paginator.page_of p np)).
  { unfold p. rewrite num_pages_new by assumption. cbn [rbind].
    apply page_int_valid; [assumption | fold np; lia]. }
  destruct (PyInt.int page_nr) as [n |].
  - destruct ((n <? 1) || (np <? n)); rewrite Hc; [exact Hlast | reflexivity].
  - rewrite Hc. exact Hlast.
Qed.

(** C5: with a positive page size the paginator of [browse] always hands
    out a page. A page parameter that is no integer, below 1 or above the
    page count yields the last page (numbered with the page count and
    holding the tail of the sequence), a parameter in range yields its own
    page, and an empty sequence has one page: the empty page numbered 1. *)
Theorem browse_page_clamps (files : list FileObject) (pp : Z)
    (page_nr : string) :
  0 < pp ->
  exists np pg,
    Paginator.num_pages (Paginator.new files pp) = Ok np
    /\ 1 <= np
    /\ browse_page (Paginator.new files pp) page_nr = Ok pg
    /\ (PyInt.int page_nr = None ->
        pg = Paginator.mk_page (drop (Z.to_nat ((np - 1) * pp)) files) np)
    /\ (forall n, PyInt.int page_nr = Some n -> n < 1 \/ np < n ->
        pg = Paginator.mk_page (drop (Z.to_nat ((np - 1) * pp)) files) np)
    /\ (forall n, PyInt.int page_nr = Some n -> 1 <= n <= np ->
        pg = Paginator.page_of (Paginator.new files pp) n)
    /\ (files = [] -> np = 1 /\ pg = Paginator.mk_page [] 1).
Proof.
  intros Hpp.
  set (np := Paginator.ceil_div (Z.max 1 (Z.of_nat (length files))) pp).
  pose proof (ceil_div_bounds (Z.max 1 (Z.of_nat (length files))) pp Hpp
                ltac:(lia)) as (Hnp1 & _).
  fold np in Hnp1.
  pose proof (browse_page_new files pp page_nr Hpp) as Hpg. cbv zeta in Hpg.
  fold np in Hpg.
  pose proof (page_of_last files pp Hpp) as Hlast. cbv zeta in Hlast.
  fold np in Hlast.
  eexists np, _. split; [apply num_pages_new; assumption |].
  split; [assumption |]. split; [exact Hpg |].
  split; [| split; [| split]].
  - intros ->. exact Hlast.
  - intros n -> Hout.
    assert (Hb : (n <? 1) || (np <? n) = true).
    { apply orb_true_iff. destruct Hout; [left | right]; now apply Z.ltb_lt. }
    rewrite Hb. exact Hlast.
  - intros n -> Hin.
    assert (Hb : (n <? 1) || (np <? n) = false).
    { apply orb_false_iff. split; apply Z.ltb_ge; lia. }
    now rewrite Hb.
  - intros ->.
    assert (Hone : np = 1).
    { pose proof (num_pages_empty (A := FileObject) pp Hpp) as He.
      rewrite num_pages_new in He by assumption. now injection He. }
    split; [exact Hone |].
    rewrite Hone. destruct (PyInt.int page_nr) as [n |].
    + destruct ((n <? 1) || (1 <? n)) eqn:Hb.
      * apply page_of_empty.
      * apply orb_false_iff in Hb as [H1 H2].
        apply Z.ltb_ge in H1, H2. assert (n = 1) as -> by lia.
        apply page_of_empty.
    + apply page_of_empty.
Qed.

Lemma browse_page_clamps_witness :
  0 < 10
  /\ browse_page (Paginator.new [] 10) "5" = Ok (Paginator.mk_page [] 1).
Proof.
  split; [lia |].
  destruct (browse_page_clamps [] 10 "5" ltac:(lia))
    as (np & pg & _ & _ & Hpg & _ & _ & _ & Hempty).
  destruct (Hempty eq_refl) as [_ ->]. exact Hpg.
Defined.

Example paginate_empty_page_5 :
  browse_page (Paginator.new [] 10) "5" = Ok (Paginator.mk_page [] 1).
Proof. reflexivity. Qed.

Example paginate_25_page_3 :
  browse_page (Paginator.new (Sample.numbered 25) 10) "3"
  = Ok (Paginator.mk_page (drop 20 (Sample.numbered 25)) 3).
Proof. reflexivity. Qed.

Example paginate_25_page_99 :
  browse_page (Paginator.new (Sample.numbered 25) 10) "99"
  = Ok (Paginator.mk_page (drop 20 (Sample.numbered 25)) 3).
Proof. reflexivity. Qed.

Example paginate_25_page_word :
  browse_page (Paginator.new (Sample.numbered 25) 10) "last"
  = Ok (Paginator.mk_page (drop 20 (Sample.numbered 25)) 3).
Proof. reflexivity. Qed.

Example paginate_25_page_minus_2 :
  browse_page (Paginator.new (Sample.numbered 25) 10) "-2"
  = Ok (Paginator.mk_page (drop 20 (Sample.numbered 25)) 3).
Proof. reflexivity. Qed.

Example py_int_examples :
  PyInt.int " 12 " = Some 12 /\ PyInt.int "+7" = Some 7
  /\ PyInt.int "1_000" = Some 1000 /\ PyInt.int "1__0" = None
  /\ PyInt.int "3.0" = None /\ PyInt.int "" = None /\ PyInt.int "-0" = Some 0.
Proof. repeat split. Qed.

(** *** Counts and folders of a listing *)

(** C1: whenever [browse] produces a listing, for any filters in the
    query, [results_current] (the number of entries kept) is at most
    [results_total] (the number of entries listed), and every folder of the
    listing is kept. [browse] produces no listing only when one of its
    patterns does not compile or the page size is not positive. *)
Theorem browse_results_invariant (E : re_engine) (cfg : settings)
    (clk : Clock.t) (storage_view : string -> dirtree) (directory : string)
    (GET : gmap string string) :
  match browse E cfg clk storage_view directory GET with
  | Ok ctx =>
      exists total current,
        results_total (ctx_filelisting ctx) = Some total
        /\ results_current (ctx_filelisting ctx) = Some current
        /\ total = Z.of_nat (length (ctx_listing ctx))
        /\ current = Z.of_nat (length (ctx_files ctx))
        /\ current <= total
        /\ forall f, In f (ctx_listing ctx) -> filetype f = "Folder" ->
                     In f (ctx_files ctx)
  | Raise e =>
      build_filter_re E cfg = Raise e
      \/ (truthy_opt (GET !! "q") = true
          /\ re_compile E (Str.lower (default "" (GET !! "q"))) re_M = Raise e)
      \/ LIST_PER_PAGE cfg <= 0
  end.
Proof.
  destruct (browse E cfg clk storage_view directory GET) as [ctx | e] eqn:Hb.
  - apply browse_ok_inv in Hb as (filter_re & re_q & _ & _ & Hrest).
    cbv zeta in Hrest. destruct Hrest as (_ & Hfiles & Hfl & _ & _).
    exists (Z.of_nat (length (ctx_listing ctx))),
           (Z.of_nat (length (ctx_files ctx))).
    rewrite Hfl. cbn [set_results results_total results_current].
    repeat split.
    + rewrite Hfiles. apply inj_le, filter_length_le.
    + intros f Hin Hfolder. rewrite Hfiles. apply filter_In.
      split; [assumption | now apply browse_append_folder].
  - unfold browse in Hb.
    destruct (build_filter_re E cfg) as [filter_re | e'] eqn:Hre; cbn in Hb;
      [| left; congruence].
    right.
    destruct (truthy_opt (GET !! "q")) eqn:Hq.
    + destruct (re_compile E _ re_M) as [c | e'] eqn:Hc; cbn in Hb;
        [| left; split; congruence].
      right. destruct (Z_le_gt_dec (LIST_PER_PAGE cfg) 0) as [| Hpos];
        [assumption | exfalso].
      rewrite browse_page_new in Hb by lia. discriminate.
    + cbn in Hb. right.
      destruct (Z_le_gt_dec (LIST_PER_PAGE cfg) 0) as [| Hpos];
        [assumption | exfalso].
      rewrite browse_page_new in Hb by lia. discriminate.
Qed.

Example browse_bad_pattern_raises :
  browse ReFragment.engine Sample.cfg Sample.clk Sample.storage_view "uploads"
    (Sample.query [("q", "(")])
  = Raise (ReError "(").
Proof. reflexivity. Qed.

Example browse_counts_sample :
  (fun ctx => (results_total (ctx_filelisting ctx),
               results_current (ctx_filelisting ctx), ctx_files ctx))
    <$> (match browse ReFragment.engine Sample.cfg Sample.clk
                 Sample.storage_view "uploads"
                 (Sample.query [("filter_type", "Image")])
         with Ok ctx => Some ctx | Raise _ => None end)
  = Some (Some 2, Some 1, [Sample.folder "a"]).
Proof. reflexivity. Qed.

(** C10: for a bucket outside today, thismonth, thisyear, past7days and the
    empty string [get_filterdate] answers the empty string at every
    timestamp, so a listing made with such a [filter_date] keeps the
    folders of the listing and nothing else. *)
Theorem unknown_date_bucket_keeps_folders_only (E : re_engine)
    (cfg : settings) (clk : Clock.t) (storage_view : string -> dirtree)
    (directory : string) (GET : gmap string string) (filter_date : string)
    (ctx : browse_context) :
  filter_date <> "today" -> filter_date <> "thismonth" ->
  filter_date <> "thisyear" -> filter_date <> "past7days" ->
  filter_date <> "" ->
  (forall t, get_filterdate clk filter_date t = ""
             /\ truthy (get_filterdate clk filter_date t) = false)
  /\ (GET !! "filter_date" = Some filter_date ->
      browse E cfg clk storage_view directory GET = Ok ctx ->
      forall f, In f (ctx_files ctx)
                <-> In f (ctx_listing ctx) /\ filetype f = "Folder").
Proof.
  intros H1 H2 H3 H4 H5. split.
  - intros t. rewrite get_filterdate_unknown_bucket by assumption.
    split; reflexivity.
  - intros Hfd Hb f.
    apply browse_ok_inv in Hb as (filter_re & re_q & _ & _ & Hrest).
    cbv zeta in Hrest. destruct Hrest as (_ & Hfiles & _).
    rewrite Hfiles, Hfd, filter_In.
    rewrite browse_append_date_rejected
      by (try assumption; now apply get_filterdate_unknown_bucket).
    unfold is_folder. now rewrite String.eqb_eq.
Qed.

Lemma unknown_date_bucket_witness :
  ("yesterday" <> "today" /\ "yesterday" <> "thismonth"
   /\ "yesterday" <> "thisyear" /\ "yesterday" <> "past7days"
   /\ "yesterday" <> "")%string
  /\ exists ctx,
       browse ReFragment.engine Sample.cfg Sample.clk Sample.storage_view
         "uploads" (Sample.query [("filter_date", "yesterday")]) = Ok ctx
       /\ ctx_files ctx = [Sample.folder "a"]
       /\ forall f, In f (ctx_files ctx)
                    <-> In f (ctx_listing ctx) /\ filetype f = "Folder".
Proof.
  split; [repeat split; discriminate |].
  eexists. split; [reflexivity |]. split; [reflexivity |].
  refine (proj2 (unknown_date_bucket_keeps_folders_only ReFragment.engine
            Sample.cfg Sample.clk Sample.storage_view "uploads"
            (Sample.query [("filter_date", "yesterday")]) "yesterday" _
            _ _ _ _ _) _ _); try discriminate; reflexivity.
Defined.

(** *** Searching *)

Lemma lower_char_special (c : ascii) :
  ReFragment.is_special (Str.lower_char c) = ReFragment.is_special c.
Proof. destruct c as [[] [] [] [] [] [] [] []]; reflexivity. Qed.

Lemma lower_plain (s : string) :
  ReFragment.plain (Str.lower s) = ReFragment.plain s.
Proof.
  induction s as [| c s IH]; cbn [ReFragment.plain Str.lower]; [reflexivity |].
  now rewrite lower_char_special, IH.
Qed.

Lemma not_special_not_dot (c : ascii) :
  ReFragment.is_special c = false -> Ascii.eqb c "." = false.
Proof.
  unfold ReFragment.is_special, ReFragment.special. cbn [existsb].
  intros Hs. now apply orb_false_iff in Hs as [Hdot _].
Qed.

Lemma parse_plain (p : string) :
  ReFragment.plain p = true ->
  ReFragment.parse p
  = Some (map ReFragment.Lit (list_ascii_of_string p)).
Proof.
  induction p as [| c p IH];
    cbn [ReFragment.plain ReFragment.parse list_ascii_of_string map];
    [reflexivity |].
  intros Hp. apply andb_true_iff in Hp as [Hc Hp].
  apply negb_true_iff in Hc.
  rewrite (not_special_not_dot c Hc), Hc, (IH Hp). reflexivity.
Qed.

Lemma match_here_literal (p s : string) :
  ReFragment.match_here re_M (map ReFragment.Lit (list_ascii_of_string p)) s
  = String.prefix p s.
Proof.
  revert s. induction p as [| c p IH]; intros s; cbn.
  - now destruct s.
  - destruct s as [| d s]; [reflexivity |]. cbn.
    destruct (ascii_dec c d) as [-> | Hne].
    + now rewrite Ascii.eqb_refl, IH.
    + apply Ascii.eqb_neq in Hne. now rewrite Hne.
Qed.

Lemma search_from_literal (p s : string) :
  ReFragment.search_from re_M (map ReFragment.Lit (list_ascii_of_string p)) s
  = Str.contains p s.
Proof.
  induction s as [| d s IH].
  - cbn [ReFragment.search_from Str.contains]. now rewrite match_here_literal.
  - cbn [ReFragment.search_from Str.contains].
    now rewrite match_here_literal, IH.
Qed.

Lemma fragment_engine_literal : literal_engine ReFragment.engine.
Proof.
  intros p Hp. cbn [re_compile re_search ReFragment.engine].
  unfold ReFragment.compile. rewrite (parse_plain p Hp).
  eexists. split; [reflexivity |].
  intros s. unfold ReFragment.search. cbn [fst snd].
  apply search_from_literal.
Qed.

Lemma contains_empty (s : string) : Str.contains "" s = true.
Proof. destruct s; reflexivity. Qed.

Lemma browse_append_search (E : re_engine) (clk : Clock.t)
    (ft fd ff : option string) (c : re_pattern E) (f : FileObject) :
  filetype f <> "Folder" ->
  browse_append E clk ft fd ff (Some c) f
  = browse_append E clk ft fd ff None f
    && re_search E c (Str.lower (filename f)).
Proof.
  intros Hnf. apply String.eqb_neq in Hnf.
  unfold browse_append. rewrite Hnf.
  destruct (re_search E c (Str.lower (filename f))); cbn [negb].
  - now rewrite andb_true_r.
  - now rewrite andb_false_r.
Qed.

(** C8, as the code has it: the search term is compiled as a regular
    expression. A term without special characters is looked for as a
    case-insensitive substring of the name: a non-folder entry of the
    listing is kept exactly when it passes the other filters and the
    lowered term occurs in the lowered name. The listing searched is made
    of the entries the exclusion predicate admits among all descendants of
    the root when SEARCH_TRAVERSE is set and a term is given, and among the
    immediate children otherwise. *)
Theorem search_plain_term_is_substring (E : re_engine) (cfg : settings)
    (clk : Clock.t) (storage_view : string -> dirtree) (directory : string)
    (GET : gmap string string) (ctx : browse_context) :
  literal_engine E ->
  browse E cfg clk storage_view directory GET = Ok ctx ->
  (forall q f,
      GET !! "q" = Some q -> ReFragment.plain q = true ->
      In f (ctx_listing ctx) -> filetype f <> "Folder" ->
      (In f (ctx_files ctx)
       <-> browse_append E clk (GET !! "filter_type") (GET !! "filter_date")
             (GET !! "type") None f = true
           /\ ci_substring q (filename f) = true))
  /\ exists filter_re,
       build_filter_re E cfg = Ok filter_re
       /\ forall f,
            In f (ctx_listing ctx)
            <-> In f (let root :=
                        storage_view
                          (Str.path_join directory (default "" (GET !! "dir")))
                      in
                      if SEARCH_TRAVERSE cfg && truthy_opt (GET !! "q")
                      then descendants root
                      else map tree_obj (tree_children root))
                /\ filter_browse E filter_re f = true.
Proof.
  intros Hlit Hb.
  apply browse_ok_inv in Hb as (filter_re & re_q & Hre & Hq & Hrest).
  cbv zeta in Hrest. destruct Hrest as (Hlisting & Hfiles & _).
  split.
  - intros q f Hget Hplain Hin Hnf.
    rewrite Hfiles, filter_In. rewrite Hget in Hq. cbn [truthy_opt default] in Hq.
    unfold ci_substring.
    destruct (truthy q) eqn:Htq.
    + destruct Hq as (c & Hc & ->).
      cbn [from_option id] in Hc.
      destruct (Hlit (Str.lower q)) as (c' & Hc' & Hsearch);
        [now rewrite lower_plain |].
      assert (c' = c) as -> by congruence.
      rewrite browse_append_search by assumption.
      rewrite andb_true_iff, Hsearch. tauto.
    + subst re_q.
      assert (q = "") as ->.
      { unfold truthy in Htq. apply negb_false_iff in Htq.
        now apply String.eqb_eq in Htq. }
      cbn [Str.lower]. rewrite contains_empty. tauto.
  - exists filter_re. split; [assumption |].
    intros f. rewrite Hlisting. cbv zeta.
    destruct (SEARCH_TRAVERSE cfg && truthy_opt (GET !! "q"));
      unfold files_walk_filtered, files_listing_filtered;
      cbn [fl_filter_func fl_root]; apply filter_In.
Qed.

Lemma search_plain_term_witness :
  literal_engine ReFragment.engine
  /\ exists ctx,
       browse ReFragment.engine Sample.cfg Sample.clk Sample.storage_view
         "uploads" (Sample.query [("q", "REPORT")]) = Ok ctx
       /\ ctx_files ctx
          = [Sample.folder "a"; Sample.folder "b"; Sample.folder "c";
             Sample.document "Report.pdf"]
       /\ (In (Sample.document "Report.pdf") (ctx_files ctx)
           <-> browse_append ReFragment.engine Sample.clk None None None None
                 (Sample.document "Report.pdf") = true
               /\ ci_substring "REPORT" "Report.pdf" = true).
Proof.
  split; [exact fragment_engine_literal |].
  eexists. split; [reflexivity |]. split; [reflexivity |].
  refine (proj1 (search_plain_term_is_substring ReFragment.engine Sample.cfg
            Sample.clk Sample.storage_view "uploads"
            (Sample.query [("q", "REPORT")]) _ fragment_engine_literal
            eq_refl) "REPORT" (Sample.document "Report.pdf") eq_refl eq_refl
            _ _).
  - vm_compute. do 3 right. left. reflexivity.
  - discriminate.
Defined.

(** The claim C8 as stated fails on the code: the term "a.c" is no
    substring of the name "abc", and the entry is kept all the same,
    because "." is read as the wildcard of a regular expression. *)
Lemma search_is_regex_counterexample :
  ~ (forall (q : string) (f : FileObject) (ctx : browse_context),
        browse ReFragment.engine Sample.cfg Sample.clk Sample.storage_view
          "uploads" (Sample.query [("q", q)]) = Ok ctx ->
        In f (ctx_listing ctx) -> filetype f <> "Folder" ->
        (In f (ctx_files ctx) <-> ci_substring q (filename f) = true)).
Proof.
  intros Hclaim.
  specialize (Hclaim "a.c" (Sample.document "abc") _ eq_refl).
  assert (Hin : In (Sample.document "abc")
                  [Sample.folder "a"; Sample.folder "b"; Sample.folder "c";
                   Sample.document "Report.pdf"; Sample.document "abc"]).
  { cbn. tauto. }
  specialize (Hclaim Hin ltac:(discriminate)).
  assert (Hkept : In (Sample.document "abc")
                    [Sample.folder "a"; Sample.folder "b"; Sample.folder "c";
                     Sample.document "abc"]).
  { cbn. tauto. }
  apply Hclaim in Hkept. discriminate Hkept.
Qed.

Example search_nested_three_deep :
  ctx_files
    <$> (match browse ReFragment.engine Sample.cfg Sample.clk
                 Sample.storage_view "uploads" (Sample.query [("q", "report")])
         with Ok ctx => Some ctx | Raise _ => None end)
  = Some [Sample.folder "a"; Sample.folder "b"; Sample.folder "c";
          Sample.document "Report.pdf"].
Proof. reflexivity. Qed.

(** *** Ordered dictionaries *)

Section ODictFacts.
Context {V : Type}.
Implicit Types (d : ODict.t V) (k : string) (v : V).

Lemma odict_get_set_eq d k v : ODict.get k (ODict.set k v d) = Some v.
Proof.
  induction d as [| [k' v'] d IH]; cbn.
  - now rewrite String.eqb_refl.
  - destruct (String.eqb k' k) eqn:Hk; cbn.
    + now rewrite String.eqb_refl.
    + now rewrite Hk.
Qed.

Lemma odict_get_set_ne d k k' v :
  k <> k' -> ODict.get k' (ODict.set k v d) = ODict.get k' d.
Proof.
  intros Hne. induction d as [| [k0 v0] d IH]; cbn.
  - apply String.eqb_neq in Hne. now rewrite Hne.
  - destruct (String.eqb k0 k) eqn:Hk; cbn.
    + apply String.eqb_eq in Hk. subst k0.
      apply String.eqb_neq in Hne. now rewrite Hne.
    + now rewrite IH.
Qed.

Lemma odict_get_in d k v : ODict.get k d = Some v -> In (k, v) d.
Proof.
  induction d as [| [k' v'] d IH]; cbn; [discriminate |].
  destruct (String.eqb k' k) eqn:Hk.
  - apply String.eqb_eq in Hk. intros [= ->]. left. now subst.
  - intros Hg. right. now apply IH.
Qed.

Lemma odict_get_none d k : ODict.get k d = None <-> ~ In k (ODict.keys d).
Proof.
  induction d as [| [k' v'] d IH]; cbn; [tauto |].
  destruct (String.eqb k' k) eqn:Hk.
  - apply String.eqb_eq in Hk. split; [discriminate | tauto].
  - apply String.eqb_neq in Hk. rewrite IH. tauto.
Qed.

Lemma odict_in_get d k v :
  List.NoDup (ODict.keys d) -> In (k, v) d -> ODict.get k d = Some v.
Proof.
  induction d as [| [k' v'] d IH]; cbn; [tauto |].
  intros Hnd [Heq | Hin].
  - injection Heq as -> ->. now rewrite String.eqb_refl.
  - apply List.NoDup_cons_iff in Hnd as [Hnotin Hnd].
    destruct (String.eqb k' k) eqn:Hk.
    + apply String.eqb_eq in Hk. subst k'. exfalso. apply Hnotin.
      unfold ODict.keys. change k with (fst (k, v)). now apply in_map.
    + now apply IH.
Qed.

Lemma odict_keys_set d k v k' :
  In k' (ODict.keys (ODict.set k v d)) <-> k' = k \/ In k' (ODict.keys d).
Proof.
  induction d as [| [k0 v0] d IH]; cbn.
  - intuition congruence.
  - destruct (String.eqb k0 k) eqn:Hk; cbn.
    + apply String.eqb_eq in Hk. subst k0. intuition congruence.
    + rewrite IH. intuition congruence.
Qed.

Lemma odict_nodup_set d k v :
  List.NoDup (ODict.keys d) -> List.NoDup (ODict.keys (ODict.set k v d)).
Proof.
  induction d as [| [k0 v0] d IH]; cbn; intros Hnd.
  - constructor; [intros [] | constructor].
  - apply List.NoDup_cons_iff in Hnd as [Hnotin Hnd].
    destruct (String.eqb k0 k) eqn:Hk; cbn.
    + apply String.eqb_eq in Hk. subst k0. now constructor.
    + apply String.eqb_neq in Hk. constructor; [| now apply IH].
      fold (ODict.keys (ODict.set k v d)). rewrite odict_keys_set.
      intuition congruence.
Qed.

Lemma odict_keys_remove d k k' :
  In k' (ODict.keys (ODict.remove k d)) -> In k' (ODict.keys d).
Proof.
  induction d as [| [k0 v0] d IH]; cbn; [tauto |].
  destruct (String.eqb k0 k); cbn; intuition.
Qed.

Lemma odict_nodup_remove d k :
  List.NoDup (ODict.keys d) -> List.NoDup (ODict.keys (ODict.remove k d)).
Proof.
  induction d as [| [k0 v0] d IH]; cbn; intros Hnd; [constructor |].
  apply List.NoDup_cons_iff in Hnd as [Hnotin Hnd].
  destruct (String.eqb k0 k); cbn; [assumption |].
  constructor; [| now apply IH].
  intros Hin. apply Hnotin. eapply odict_keys_remove. exact Hin.
Qed.

Lemma odict_remove_absent d k :
  List.NoDup (ODict.keys d) -> ~ In k (ODict.keys (ODict.remove k d)).
Proof.
  induction d as [| [k0 v0] d IH]; cbn; intros Hnd; [tauto |].
  apply List.NoDup_cons_iff in Hnd as [Hnotin Hnd].
  destruct (String.eqb k0 k) eqn:Hk; cbn.
  - apply String.eqb_eq in Hk. now subst k0.
  - apply String.eqb_neq in Hk. intros [Heq | Hin]; [congruence |].
    now apply (IH Hnd).
Qed.

Lemma odict_get_remove_ne d k k' :
  k <> k' -> ODict.get k' (ODict.remove k d) = ODict.get k' d.
Proof.
  intros Hne. induction d as [| [k0 v0] d IH]; cbn; [reflexivity |].
  destruct (String.eqb k0 k) eqn:Hk; cbn.
  - apply String.eqb_eq in Hk. subst k0.
    apply String.eqb_neq in Hne. now rewrite Hne.
  - now rewrite IH.
Qed.

End ODictFacts.

(** *** Order of names and the sort of [actions] *)

Lemma ltb_false_leb (x y : string) :
  String.ltb y x = false -> String.leb x y = true.
Proof.
  unfold String.ltb, String.leb. rewrite (String.compare_antisym x y).
  now destruct (String.compare y x).
Qed.

Lemma ltb_true_leb (x y : string) :
  String.ltb x y = true -> String.leb x y = true.
Proof.
  unfold String.ltb, String.leb. now destruct (String.compare x y).
Qed.

Lemma leb_neq_ltb (x y : string) :
  String.leb x y = true -> x <> y -> String.ltb x y = true.
Proof.
  unfold String.ltb, String.leb. intros Hle Hne.
  destruct (String.compare x y) eqn:Hc; try reflexivity; try discriminate.
  exfalso. apply Hne. now apply String.compare_eq_iff.
Qed.

Lemma leb_trans (x y z : string) :
  String.leb x y = true -> String.leb y z = true -> String.leb x z = true.
Proof.
  intros Hxy Hyz. apply Is_true_true.
  apply Is_true_true in Hxy, Hyz.
  exact (transitivity (R := String.le) Hxy Hyz).
Qed.

Section SortFacts.
Context {V : Type}.
Implicit Types (x y : string * V) (l : list (string * V)).

Lemma sort_insert_perm x l : Permutation (ODict.sort_insert x l) (x :: l).
Proof.
  induction l as [| y l IH]; cbn; [reflexivity |].
  destruct (String.ltb (fst y) (fst x)); [| reflexivity].
  rewrite IH. apply perm_swap.
Qed.

Lemma sort_by_name_perm l : Permutation (ODict.sort_by_name l) l.
Proof.
  induction l as [| x l IH]; cbn; [reflexivity |].
  rewrite sort_insert_perm. now constructor.
Qed.

Lemma sort_insert_sorted x l :
  StronglySorted ODict.name_le l -> StronglySorted ODict.name_le (ODict.sort_insert x l).
Proof.
  induction 1 as [| y l Hs IH Hall]; cbn.
  - constructor; constructor.
  - destruct (String.ltb (fst y) (fst x)) eqn:Hlt.
    + constructor; [exact IH |].
      apply List.Forall_forall. intros z Hz.
      apply (Permutation_in _ (sort_insert_perm x l)) in Hz.
      destruct Hz as [<- | Hz].
      * now apply ltb_true_leb.
      * rewrite List.Forall_forall in Hall. now apply Hall.
    + apply ltb_false_leb in Hlt.
      constructor; [now constructor |].
      constructor; [exact Hlt |].
      rewrite List.Forall_forall in Hall |- *. intros z Hz.
      eapply leb_trans; [exact Hlt | now apply Hall].
Qed.

Lemma sort_by_name_sorted l : StronglySorted ODict.name_le (ODict.sort_by_name l).
Proof.
  induction l as [| x l IH]; cbn; [constructor |].
  now apply sort_insert_sorted.
Qed.

Lemma sorted_nodup_strict l :
  StronglySorted ODict.name_le l -> List.NoDup (map fst l) ->
  StronglySorted ODict.name_lt l.
Proof.
  induction 1 as [| y l Hs IH Hall]; cbn; intros Hnd; [constructor |].
  apply List.NoDup_cons_iff in Hnd as [Hnotin Hnd].
  constructor; [now apply IH |].
  rewrite List.Forall_forall in Hall |- *. intros z Hz.
  apply leb_neq_ltb; [now apply Hall |].
  intros Heq. apply Hnotin. rewrite Heq. now apply in_map.
Qed.

(** Equal names keep the order they had: the sort is stable. *)
Lemma sort_insert_stable x l :
  Forall (ODict.name_le x) l -> ODict.sort_insert x l = x :: l.
Proof.
  intros Hall. destruct l as [| y l]; cbn; [reflexivity |].
  apply Forall_cons in Hall as [Hxy _].
  destruct (String.ltb (fst y) (fst x)) eqn:Hlt; [| reflexivity].
  exfalso. unfold ODict.name_le in Hxy. unfold String.ltb in Hlt.
  unfold String.leb in Hxy. rewrite (String.compare_antisym x.1 y.1) in Hxy.
  destruct (String.compare y.1 x.1); cbn in *; discriminate.
Qed.

End SortFacts.

(** *** The action registry *)

Lemma odict_in_set {V : Type} (d : ODict.t V) (k k' : string) (v v' : V) :
  In (k', v') (ODict.set k v d) -> (k', v') = (k, v) \/ In (k', v') d.
Proof.
  induction d as [| [k0 v0] d IH]; cbn.
  - intuition.
  - destruct (String.eqb k0 k); cbn; intuition.
Qed.

Lemma odict_in_remove {V : Type} (d : ODict.t V) (k : string)
    (e : string * V) :
  In e (ODict.remove k d) -> In e d.
Proof.
  induction d as [| [k0 v0] d IH]; cbn; [tauto |].
  destruct (String.eqb k0 k); cbn; intuition.
Qed.

(** [add_action] leaves the action with an [applies_to] and takes the
    attribute away from no other action. *)
Lemma add_action_applies_to (h : heap) (self : FileBrowserSite)
    (action : action_ref) (name : option string) :
  let h' := fst (add_action action name (h, self)) in
  applies_to (h' action) <> None
  /\ forall r, applies_to (h r) <> None -> applies_to (h' r) <> None.
Proof.
  cbn [add_action fst]. unfold heap_set.
  destruct (short_description (h action)) eqn:Hsd;
    [destruct (applies_to (h action)) eqn:Hap
    | rewrite Nat.eqb_refl; cbn [applies_to];
      destruct (applies_to (h action)) eqn:Hap];
    cbn [fst]; split;
    try (intros r Hr; destruct (Nat.eqb r action) eqn:Hra;
         [apply Nat.eqb_eq in Hra; subst r |]);
    rewrite ?Nat.eqb_refl; cbn [applies_to]; try congruence.
Qed.

Lemma add_action_site (h : heap) (self : FileBrowserSite)
    (action : action_ref) (name : option string) :
  snd (add_action action name (h, self))
  = mk_site (site_name self) (site_app_name self)
      (ODict.set (action_name h action name) action (_actions self))
      (ODict.set (action_name h action name) action (_global_actions self)).
Proof. reflexivity. Qed.

Lemma reachable_inv (hs : heap * FileBrowserSite) :
  reachable hs -> registry_inv hs.
Proof.
  induction 1 as [h name app | [h self] action name Hr (Hnd & Hap & Hglob)
                 | h self self' name Hr (Hnd & Hap & Hglob) Hdis].
  - split; [| split]; cbn; [constructor | tauto | discriminate].
  - pose proof (add_action_applies_to h self action name) as [Hnew Hold].
    cbv zeta in Hnew, Hold. cbn [fst snd] in Hnd, Hap, Hglob.
    split; [| split].
    + rewrite add_action_site. cbn [_actions]. now apply odict_nodup_set.
    + intros n a Hin. rewrite add_action_site in Hin. cbn [_actions] in Hin.
      apply odict_in_set in Hin as [[= -> ->] | Hin]; [exact Hnew |].
      apply Hold. eapply Hap. exact Hin.
    + intros n a. rewrite add_action_site. cbn [_actions _global_actions].
      destruct (String.eqb_spec (action_name h action name) n) as [<- | Hne].
      * now rewrite !odict_get_set_eq.
      * rewrite !odict_get_set_ne by assumption. apply Hglob.
  - cbn [fst snd] in *. unfold disable_action, ODict.del in Hdis.
    destruct (ODict.get name (_actions self)) as [found |]; cbn in Hdis;
      [| discriminate].
    injection Hdis as <-. cbn [fst snd _actions _global_actions].
    split; [| split].
    + now apply odict_nodup_remove.
    + intros n a Hin. apply odict_in_remove in Hin. eapply Hap. exact Hin.
    + intros n a Hget. cbn [fst snd _actions] in Hget. apply Hglob.
      destruct (String.eqb_spec name n) as [<- | Hne].
      * exfalso. apply (odict_remove_absent (_actions self) name Hnd).
        apply odict_get_in in Hget.
        change name with (fst (name, a)). now apply in_map.
      * now rewrite odict_get_remove_ne in Hget.
Qed.

Lemma applicable_loop_filter (h : heap) (f : FileObject)
    (todo res : list (string * action_ref)) :
  (forall n a, In (n, a) todo -> applies_to (h a) <> None) ->
  applicable_loop h f todo res
  = Ok (res ++ List.filter (action_applies h f) todo).
Proof.
  revert res. induction todo as [| [n a] todo IH]; intros res Hall; cbn.
  - now rewrite app_nil_r.
  - unfold action_applies at 1. cbn [snd].
    destruct (applies_to (h a)) as [applies |] eqn:Hap.
    + rewrite IH by (intros n' a' Hin; eapply Hall; right; exact Hin).
      destruct (applies f); [now rewrite <- app_assoc | reflexivity].
    + exfalso. apply (Hall n a); [now left | assumption].
Qed.

(** C7: in every registry reached by calls of [add_action] and
    [disable_action], [actions] lists the enabled actions, the entries of
    [_actions], as (name, action) pairs in strictly ascending order of
    name, and [applicable_actions] returns the entries of that list whose
    [applies_to] accepts the file object, in the same order. *)
Theorem actions_sorted_applicable (h : heap) (self : FileBrowserSite) :
  reachable (h, self) ->
  StronglySorted ODict.name_lt (actions self)
  /\ Permutation (actions self) (ODict.items (_actions self))
  /\ (forall n a,
        In (n, a) (actions self) <-> ODict.get n (_actions self) = Some a)
  /\ forall fileobject,
       applicable_actions h self fileobject
       = Ok (List.filter (action_applies h fileobject) (actions self)).
Proof.
  intros Hr. apply reachable_inv in Hr as (Hnd & Hap & _).
  cbn [fst snd] in Hnd, Hap.
  pose proof (sort_by_name_perm (ODict.items (_actions self))) as Hperm.
  fold (actions self) in Hperm.
  split; [| split; [exact Hperm | split]].
  - apply sorted_nodup_strict; [apply sort_by_name_sorted |].
    eapply Permutation_NoDup; [| exact Hnd].
    apply Permutation_map. symmetry. exact Hperm.
  - intros n a. split.
    + intros Hin. apply odict_in_get; [exact Hnd |].
      eapply Permutation_in; [exact Hperm | exact Hin].
    + intros Hget. apply odict_get_in in Hget.
      eapply Permutation_in; [symmetry; exact Hperm | exact Hget].
  - intros f. unfold applicable_actions.
    rewrite applicable_loop_filter; [reflexivity |].
    intros n a Hin. apply (Hap n a).
    eapply Permutation_in; [exact Hperm | exact Hin].
Qed.

Lemma actions_sorted_applicable_witness :
  let hs := add_action 1%nat None
              (add_action 0%nat None (add_action 2%nat None (Sample.heap0, Sample.site0)))
  in
  reachable hs
  /\ actions (snd hs)
     = [("flip_horizontal", 0%nat); ("flip_vertical", 2%nat);
        ("rotate_180", 1%nat)]
  /\ StronglySorted ODict.name_lt (actions (snd hs))
  /\ applicable_actions (fst hs) (snd hs) (Sample.document "a.txt")
     = Ok [("flip_horizontal", 0%nat); ("rotate_180", 1%nat)].
Proof.
  assert (Hr : reachable
                 (add_action 1%nat None
                    (add_action 0%nat None
                       (add_action 2%nat None (Sample.heap0, Sample.site0))))).
  { do 3 apply reach_add. apply reach_init. }
  cbv zeta. split; [exact Hr |]. split; [reflexivity |].
  destruct (actions_sorted_applicable _ _ Hr) as (Hsorted & _ & _ & Happ).
  split; [exact Hsorted |].
  rewrite Happ. reflexivity.
Defined.

Lemma add_action_registers (h : heap) (self : FileBrowserSite)
    (action : action_ref) (name : option string) :
  let registered := snd (add_action action name (h, self)) in
  let n := action_name h action name in
  ODict.get n (_actions registered) = Some action
  /\ ODict.get n (_global_actions registered) = Some action.
Proof.
  cbv zeta. rewrite add_action_site. cbn [_actions _global_actions].
  now rewrite !odict_get_set_eq.
Qed.

(** C6: once an action A is registered under a name n, by
    [add_action(A, n)] possibly followed by other calls that leave n
    enabled, [disable_action(n)] succeeds, n is missing from [actions]
    afterwards and [get_action(n)] still answers A: [disable_action]
    leaves [_global_actions] as it was. *)
Theorem disabled_action_still_found (h : heap) (self : FileBrowserSite)
    (n : string) (action : action_ref) :
  reachable (h, self) ->
  ODict.get n (_actions self) = Some action ->
  exists disabled,
    disable_action n self = Ok disabled
    /\ ~ In n (map fst (actions disabled))
    /\ get_action n disabled = Ok action
    /\ _global_actions disabled = _global_actions self.
Proof.
  intros Hr Hget.
  apply reachable_inv in Hr as (Hnd & _ & Hglob). cbn [fst snd] in Hnd, Hglob.
  unfold disable_action, ODict.del. rewrite Hget. cbn [rbind].
  eexists. split; [reflexivity |].
  cbn [_global_actions]. split; [| split; [| reflexivity]].
  - unfold actions. cbn [_actions]. intros Hin.
    apply (odict_remove_absent (_actions self) n Hnd).
    eapply Permutation_in; [| exact Hin].
    apply Permutation_map. apply sort_by_name_perm.
  - unfold get_action, ODict.subscript. cbn [_global_actions].
    now rewrite (Hglob n action Hget).
Qed.

Lemma disabled_action_witness :
  let hs := add_action 1%nat None
              (add_action 0%nat (Some "flip") (Sample.heap0, Sample.site0)) in
  (reachable hs /\ ODict.get "flip" (_actions (snd hs)) = Some 0%nat)
  /\ exists disabled,
       disable_action "flip" (snd hs) = Ok disabled
       /\ actions disabled = [("rotate_180", 1%nat)]
       /\ get_action "flip" disabled = Ok 0%nat.
Proof.
  assert (Hr : reachable
                 (add_action 1%nat None
                    (add_action 0%nat (Some "flip")
                       (Sample.heap0, Sample.site0)))).
  { do 2 apply reach_add. apply reach_init. }
  cbv zeta. split; [split; [exact Hr | reflexivity] |].
  destruct (disabled_action_still_found _ _ "flip" 0%nat Hr eq_refl)
    as (disabled & Hdis & _ & Hfound & _).
  exists disabled. split; [exact Hdis |]. split; [| exact Hfound].
  cbn in Hdis. injection Hdis as <-. reflexivity.
Defined.

Example actions_order_independent :
  actions (snd (add_action 1%nat (Some "b")
                  (add_action 0%nat (Some "a") (Sample.heap0, Sample.site0))))
  = actions (snd (add_action 0%nat (Some "a")
                    (add_action 1%nat (Some "b") (Sample.heap0, Sample.site0)))).
Proof. reflexivity. Qed.

Example disable_unknown_raises :
  disable_action "flip" Sample.site0 = Raise (KeyError "flip")
  /\ get_action "flip" Sample.site0 = Raise (KeyError "flip").
Proof. split; reflexivity. Qed.

Example add_action_fills_description :
  short_description
    (fst (add_action 0%nat None (Sample.heap0, Sample.site0)) 0%nat)
  = Some "Flip horizontal".
Proof. reflexivity. Qed.

(** *** The site cache *)

Section SiteCacheFacts.
Context {Site : Type}.
Implicit Types (cache : gmap string (gmap (option string) Site)).

Lemma register_site_lookup_eq cache app (n : option string) (site : Site) :
  cache_lookup app n (register_site app n site cache) = Some site.
Proof.
  unfold cache_lookup, register_site.
  rewrite lookup_insert_eq. cbn. apply lookup_insert_eq.
Qed.

Lemma register_site_lookup_ne cache app app' (n n' : option string)
    (site : Site) :
  (app', n') <> (app, n) ->
  cache_lookup app' n' (register_site app n site cache)
  = cache_lookup app' n' cache.
Proof.
  intros Hne. unfold cache_lookup, register_site.
  destruct (decide (app = app')) as [<- | Happ].
  - rewrite lookup_insert_eq. cbn.
    assert (Hn : n <> n') by congruence.
    rewrite lookup_insert_ne by assumption.
    destruct (cache !! app) as [sites |] eqn:Hc; cbn.
    + now rewrite Hc.
    + rewrite lookup_insert_eq. cbn. apply lookup_empty.
  - rewrite lookup_insert_ne by assumption.
    destruct (cache !! app) as [sites |] eqn:Hc; [reflexivity |].
    now rewrite lookup_insert_ne by assumption.
Qed.

End SiteCacheFacts.

(** [__init__] leaves a site with empty registries and registers it. *)
Lemma init_reachable_and_registered {Site : Type} (h : heap) (self : Site)
    (name : option string) (app_name : string)
    (cache : gmap string (gmap (option string) Site)) :
  reachable (h, fst (FileBrowserSite_init self name app_name cache))
  /\ cache_lookup app_name name
       (snd (FileBrowserSite_init self name app_name cache))
     = Some self.
Proof.
  split; [apply reach_init | apply register_site_lookup_eq].
Qed.

(** C9: [register_site] inserts or overwrites the binding of its key.
    After two registrations under one key the cache answers the second
    site for it, the sites deployed under that application are resolved to
    the second site as well, and a registration changes the binding of no
    other key. *)
Theorem register_site_overwrites {Site : Type}
    (cache : gmap string (gmap (option string) Site)) (app : string)
    (n : option string) (first second : Site) :
  cache_lookup app n
    (register_site app n second (register_site app n first cache))
  = Some second
  /\ (forall app_dict deployed,
        app_dict !! app = Some deployed -> n ∈ deployed ->
        exists sites,
          get_site_dict app_dict app
            (register_site app n second (register_site app n first cache))
          = Ok sites
          /\ sites !! n = Some second)
  /\ forall app' n',
       (app', n') <> (app, n) ->
       cache_lookup app' n' (register_site app n first cache)
       = cache_lookup app' n' cache.
Proof.
  split; [apply register_site_lookup_eq |]. split.
  - intros app_dict deployed Hdep Hin.
    pose proof (register_site_lookup_eq (register_site app n first cache)
                  app n second) as Hl.
    unfold cache_lookup in Hl. unfold get_site_dict.
    destruct (register_site app n second (register_site app n first cache)
                !! app) as [sites |]; cbn in Hl; [| discriminate].
    rewrite Hdep. eexists. split; [reflexivity |].
    apply map_lookup_filter_Some. split; [exact Hl | exact Hin].
  - intros app' n' Hne. now apply register_site_lookup_ne.
Qed.

Lemma register_site_overwrites_witness :
  let cache : gmap string (gmap (option string) nat) :=
    register_site "filebrowser" (Some "media") 7%nat ∅ in
  cache_lookup "filebrowser" (Some "filebrowser")
    (register_site "filebrowser" (Some "filebrowser") 2%nat
       (register_site "filebrowser" (Some "filebrowser") 1%nat cache))
  = Some 2%nat
  /\ (("filebrowser", Some "media") <> ("filebrowser", Some "filebrowser")
      /\ cache_lookup "filebrowser" (Some "media")
           (register_site "filebrowser" (Some "filebrowser") 1%nat cache)
         = Some 7%nat).
Proof.
  cbv zeta.
  destruct (register_site_overwrites
              (register_site "filebrowser" (Some "media") 7%nat ∅)
              "filebrowser" (Some "filebrowser") 1%nat 2%nat)
    as (Hsecond & _ & Hother).
  split; [exact Hsecond |].
  assert (Hne : ("filebrowser"%string, Some "media"%string)
                <> ("filebrowser"%string, Some "filebrowser"%string))
    by discriminate.
  split; [exact Hne |].
  rewrite (Hother _ _ Hne). apply register_site_lookup_eq.
Defined.

(** *** Paths *)

Lemma append_cons (c : ascii) (a b : string) :
  (String c a ++ b)%string = String c (a ++ b).
Proof. reflexivity. Qed.

Lemma append_empty (b : string) : ("" ++ b)%string = b.
Proof. reflexivity. Qed.

Lemma append_snoc (x : string) (c : ascii) (b : string) :
  ((x ++ String c "") ++ b)%string = (x ++ String c b)%string.
Proof.
  induction x as [| d x IH]; [reflexivity |].
  rewrite !append_cons. now rewrite IH.
Qed.

Ltac norm_append := repeat (rewrite append_cons || rewrite append_empty).

Lemma prefix_slash (c : ascii) (s : string) :
  String.prefix "/" (String c s) = Ascii.eqb c "/".
Proof.
  cbn [String.prefix]. destruct (ascii_dec "/" c) as [<- | Hne].
  - now destruct s.
  - symmetry. apply Ascii.eqb_neq. congruence.
Qed.

Lemma contains_slash_cons (c : ascii) (s : string) :
  Str.contains "/" (String c s) = Ascii.eqb c "/" || Str.contains "/" s.
Proof. cbn [Str.contains]. now rewrite prefix_slash. Qed.

Lemma basename_no_slash (b : string) :
  Str.contains "/" b = false -> Str.basename b = b.
Proof.
  destruct b as [| c b]; [reflexivity |].
  rewrite contains_slash_cons. intros Hc.
  apply orb_false_iff in Hc as [Hc Hb].
  cbn [Str.basename]. now rewrite Hc, Hb.
Qed.

Lemma contains_slash_app (a b : string) :
  Str.contains "/" (a ++ String "/" b) = true.
Proof.
  induction a as [| c a IH].
  - norm_append. rewrite contains_slash_cons. reflexivity.
  - norm_append. rewrite contains_slash_cons, IH. apply orb_true_r.
Qed.

Lemma basename_app_slash (a b : string) :
  Str.contains "/" b = false -> Str.basename (a ++ String "/" b) = b.
Proof.
  intros Hb. induction a as [| c a IH].
  - norm_append. cbn [Str.basename Ascii.eqb Bool.eqb].
    now apply basename_no_slash.
  - norm_append. cbn [Str.basename].
    rewrite contains_slash_app. destruct (Ascii.eqb c "/"); exact IH.
Qed.

Lemma endswith_char_app (a : string) (c : ascii) :
  Str.endswith_char a c = true -> exists x, a = (x ++ String c "")%string.
Proof.
  induction a as [| d a IH]; cbn [Str.endswith_char]; [discriminate |].
  destruct a as [| e a].
  - intros Heq. apply Ascii.eqb_eq in Heq. subst d. now exists ""%string.
  - intros Hend. destruct (IH Hend) as [x Hx].
    exists (String d x). rewrite append_cons. now rewrite <- Hx.
Qed.

(** The base name of a path joined with a name is that name. *)
Lemma basename_path_join (path file_name : string) :
  Str.contains "/" file_name = false ->
  Str.basename (Str.path_join path file_name) = file_name.
Proof.
  intros Hb. unfold Str.path_join, Str.startswith.
  assert (Hstart : String.prefix "/" file_name = false).
  { destruct file_name as [| c s]; [reflexivity |].
    rewrite prefix_slash. rewrite contains_slash_cons in Hb.
    now apply orb_false_iff in Hb as [Hc _]. }
  rewrite Hstart.
  destruct (negb (truthy path)) eqn:Hpath; cbn [orb].
  - apply negb_true_iff in Hpath. unfold truthy in Hpath.
    apply negb_false_iff, String.eqb_eq in Hpath. subst path.
    norm_append. now apply basename_no_slash.
  - destruct (Str.endswith_char path "/") eqn:Hend.
    + destruct (endswith_char_app _ _ Hend) as [x ->].
      rewrite append_snoc. now apply basename_app_slash.
    + norm_append. now apply basename_app_slash.
Qed.

Example path_join_examples :
  Str.path_join "uploads" "" = "uploads/"
  /\ Str.path_join "uploads/" "report.pdf" = "uploads/report.pdf"
  /\ Str.path_join "uploads" "/etc/passwd" = "/etc/passwd"
  /\ Str.path_join "" "report.pdf" = "report.pdf"
  /\ Str.basename "uploads/a/report.pdf" = "report.pdf"
  /\ Str.basename "uploads/" = "".
Proof. repeat split. Qed.

(** *** Uploads *)

Section UploadFacts.
Context {St : Type} `{Storage St}.
Variable cfg : settings.
Variable directory : string.
Variable convert_filename : string -> string.
Variable strip_upload_url : string -> string.
Variable path_full : string -> string.

(** The folder, the target directory, the converted name and the
    candidate path of an upload request. *)
Local Abbreviation folder_of := (upload_folder strip_upload_url).
Local Abbreviation path_of := (upload_path cfg directory strip_upload_url).
Local Abbreviation file_path_of :=
  (candidate_path cfg directory convert_filename strip_upload_url).

(** C2: an upload whose candidate path is an existing directory answers
    success false with the converted file name, makes no call on the
    backend and sends no signal: the world is left as it was. *)
Theorem upload_directory_collision (req : request) (filedata : UploadedFile)
    (w : world St) :
  method req = "POST" ->
  FILES req = [filedata] ->
  storage_exists (store w) (file_path_of req filedata) = true ->
  storage_isdir (store w) (file_path_of req filedata) = true ->
  _upload_file cfg directory convert_filename strip_upload_url path_full req w
  = (Ok (Some (HttpResponse
                 (mk_json false (convert_filename (name filedata)) None)
                 None)),
     w).
Proof.
  intros Hpost Hfiles Hex Hdir.
  unfold _upload_file. rewrite Hpost, Hfiles. cbn [String.eqb Ascii.eqb Bool.eqb].
  unfold candidate_path, upload_path, upload_folder in Hex, Hdir.
  cbn [name]. rewrite Hex, Hdir. reflexivity.
Qed.

Lemma set_permissions_run (f : string) (w : world St) :
  set_permissions cfg path_full f w
  = match DEFAULT_PERMISSIONS cfg with
    | Some mode =>
        (fst (os_chmod (path_full f) mode (store w)),
         mk_world (snd (os_chmod (path_full f) mode (store w)))
                  (trace w ++ [EvChmod (path_full f) mode]))
    | None => (Ok tt, w)
    end.
Proof.
  unfold set_permissions. destruct (DEFAULT_PERMISSIONS cfg) as [mode |];
    [| reflexivity].
  unfold call. now destruct (os_chmod (path_full f) mode (store w)).
Qed.

Lemma set_permissions_content (f : string) (w w' : world St)
    (r : result unit) :
  chmod_keeps_content St ->
  set_permissions cfg path_full f w = (r, w') ->
  forall p, storage_read (store w') p = storage_read (store w) p.
Proof.
  intros Hkeep Hrun p. rewrite set_permissions_run in Hrun.
  destruct (DEFAULT_PERMISSIONS cfg) as [mode |].
  - injection Hrun as _ <-. cbn [store].
    eapply Hkeep. apply surjective_pairing.
  - now injection Hrun as _ <-.
Qed.

Lemma set_permissions_moves (f : string) (w w' : world St)
    (r : result unit) (old new : string) (allow_overwrite : bool) :
  set_permissions cfg path_full f w = (r, w') ->
  In (EvMove old new allow_overwrite) (trace w') ->
  In (EvMove old new allow_overwrite) (trace w).
Proof.
  intros Hrun. rewrite set_permissions_run in Hrun.
  destruct (DEFAULT_PERMISSIONS cfg) as [mode |].
  - injection Hrun as _ <-. cbn [trace]. rewrite in_app_iff. cbn.
    intuition discriminate.
  - now injection Hrun as _ <-.
Qed.

(** C3: an upload whose candidate path is an existing file, on a backend
    whose calls return. The content is saved first, under the name the
    backend picks. With OVERWRITE_EXISTING the saved file is then moved
    onto the candidate path with overwriting allowed, and the answer
    names the candidate path's file name, which is the converted name.
    Without it no move is made, the answer names the file the backend
    picked, and on a backend that saves over no existing name the file at
    the candidate path keeps its content. Both answers carry success
    true. *)
Theorem upload_over_existing_file (req : request) (filedata : UploadedFile)
    (w : world St) (uploadedfile : string) (st1 : St) :
  method req = "POST" ->
  FILES req = [filedata] ->
  storage_exists (store w) (file_path_of req filedata) = true ->
  storage_isdir (store w) (file_path_of req filedata) = false ->
  storage_save (file_path_of req filedata) (content filedata) (store w)
  = (Ok uploadedfile, st1) ->
  let file_name := convert_filename (name filedata) in
  let file_path := file_path_of req filedata in
  let temp_filename :=
    if upload_to_temp cfg (folder_of req)
         (default "" (GET req !! "temporary"))
    then Some (Str.path_join (folder_of req) file_name) else None in
  let saved :=
    trace w ++ [EvSignal "filebrowser_pre_upload" (folder_of req) file_name;
                EvSave file_path (content filedata)] in
  (OVERWRITE_EXISTING cfg = true ->
   forall (st2 : St) (w3 : world St),
     storage_move uploadedfile file_path true st1 = (Ok tt, st2) ->
     set_permissions cfg path_full file_path
       (mk_world st2 (saved ++ [EvMove uploadedfile file_path true]))
     = (Ok tt, w3) ->
     _upload_file cfg directory convert_filename strip_upload_url path_full
       req w
     = (Ok (Some (HttpResponse
                    (mk_json true (FileObject_filename file_path)
                             (Some temp_filename))
                    (Some "application/json"))),
        mk_world (store w3)
          (trace w3
           ++ [EvSignal "filebrowser_post_upload" (folder_of req) file_path]))
     /\ (Str.contains "/" file_name = false ->
         FileObject_filename file_path = file_name))
  /\ (OVERWRITE_EXISTING cfg = false ->
      forall w3 : world St,
        set_permissions cfg path_full uploadedfile (mk_world st1 saved)
        = (Ok tt, w3) ->
        _upload_file cfg directory convert_filename strip_upload_url
          path_full req w
        = (Ok (Some (HttpResponse
                       (mk_json true (FileObject_filename uploadedfile)
                                (Some temp_filename))
                       (Some "application/json"))),
           mk_world (store w3)
             (trace w3
              ++ [EvSignal "filebrowser_post_upload" (folder_of req)
                    uploadedfile]))
        /\ (forall old new allow_overwrite,
              In (EvMove old new allow_overwrite) (trace w3) ->
              In (EvMove old new allow_overwrite) (trace w))
        /\ (save_never_overwrites St -> chmod_keeps_content St ->
            storage_read (store w3) file_path
            = storage_read (store w) file_path)).
Proof.
  intros Hpost Hfiles Hex Hdir Hsave file_name file_path temp_filename saved.
  assert (Hrun : forall ow,
    OVERWRITE_EXISTING cfg = ow ->
    _upload_file cfg directory convert_filename strip_upload_url path_full
      req w
    = bind (if ow
            then bind (call (EvMove uploadedfile file_path true)
                         (storage_move uploadedfile file_path true))
                      (fun _ => ret file_path)
            else ret uploadedfile)
        (fun f =>
           bind (set_permissions cfg path_full f) (fun _ =>
           bind (send "filebrowser_post_upload" (folder_of req) f) (fun _ =>
           ret (Some (HttpResponse
                        (mk_json true (FileObject_filename f)
                                 (Some temp_filename))
                        (Some "application/json"))))))
        (mk_world st1 saved)).
  { intros ow How. unfold _upload_file.
    rewrite Hpost, Hfiles. cbn [String.eqb Ascii.eqb Bool.eqb].
    unfold candidate_path, upload_path, upload_folder in Hex, Hdir, Hsave.
    unfold temp_filename, saved, file_path, file_name, candidate_path,
      upload_path, upload_folder.
    cbn [name content]. rewrite Hex, Hdir, How. cbn [andb].
    unfold bind at 1. unfold send at 1, log. cbn [store trace].
    unfold bind at 1. unfold handle_file_upload, call at 1.
    cbn [name content store trace]. rewrite Hsave.
    rewrite <- app_assoc. reflexivity. }
  split.
  - intros How st2 w3 Hmove Hperm. split.
    + rewrite (Hrun true How). unfold bind at 1. unfold bind at 1.
      unfold call, ret at 1. cbn [store trace]. rewrite Hmove.
      unfold bind at 1. fold file_path saved. rewrite Hperm.
      reflexivity.
    + intros Hslash. unfold FileObject_filename, file_path, candidate_path.
      now apply basename_path_join.
  - intros How w3 Hperm. split; [| split].
    + rewrite (Hrun false How). unfold bind at 1, ret at 1.
      unfold bind at 1. rewrite Hperm. reflexivity.
    + intros old new ao Hin.
      apply (set_permissions_moves _ _ _ _ _ _ _ Hperm) in Hin.
      cbn [trace] in Hin. unfold saved in Hin.
      rewrite in_app_iff in Hin. cbn in Hin. intuition discriminate.
    + intros Hsaves Hchmod.
      rewrite (set_permissions_content _ _ _ _ Hchmod Hperm). cbn [store].
      eapply Hsaves; [exact Hsave | exact Hex].
Qed.

End UploadFacts.

(** The in-memory backend saves over no existing name, and its [chmod]
    changes no content. *)
Lemma mem_save_never_overwrites :
  save_never_overwrites (gmap string MemStorage.node).
Proof.
  intros nm content st st' r Hsave p Hex.
  cbn [storage_save storage_read storage_exists MemStorage.storage] in *.
  unfold MemStorage.save, MemStorage.get_available_name in Hsave.
  unfold MemStorage.read.
  assert (Hfresh : forall q, MemStorage.exists_ st q = false -> q <> p).
  { intros q Hq ->. congruence. }
  destruct (MemStorage.exists_ st nm) eqn:Hnm.
  - destruct (MemStorage.exists_ st (nm ++ "_1")) eqn:Hnm1.
    + now injection Hsave as _ <-.
    + injection Hsave as _ <-.
      now rewrite lookup_insert_ne by (apply Hfresh; exact Hnm1).
  - injection Hsave as _ <-.
    now rewrite lookup_insert_ne by (apply Hfresh; exact Hnm).
Qed.

Lemma mem_chmod_keeps_content :
  chmod_keeps_content (gmap string MemStorage.node).
Proof.
  intros path mode st st' r Hch p.
  cbn [os_chmod MemStorage.storage] in Hch. unfold MemStorage.chmod in Hch.
  now injection Hch as _ <-.
Qed.

Lemma upload_directory_collision_witness :
  let req := Sample.post (mk_upload "archive" "new") in
  (method req = "POST" /\ FILES req = [mk_upload "archive" "new"]
   /\ MemStorage.exists_ Sample.store0 "uploads/archive" = true
   /\ MemStorage.isdir Sample.store0 "uploads/archive" = true)
  /\ _upload_file Sample.cfg "uploads" id id id req Sample.world0
     = (Ok (Some (HttpResponse (mk_json false "archive" None) None)),
        Sample.world0).
Proof.
  cbv zeta. split; [repeat split |].
  exact (upload_directory_collision Sample.cfg "uploads" id id id
           (Sample.post (mk_upload "archive" "new")) (mk_upload "archive" "new")
           Sample.world0 eq_refl eq_refl eq_refl eq_refl).
Defined.

Lemma upload_over_existing_file_witness :
  let req := Sample.post (mk_upload "report.pdf" "new") in
  (method req = "POST" /\ FILES req = [mk_upload "report.pdf" "new"]
   /\ MemStorage.exists_ Sample.store0 "uploads/report.pdf" = true
   /\ MemStorage.isdir Sample.store0 "uploads/report.pdf" = false
   /\ OVERWRITE_EXISTING Sample.overwriting = true
   /\ OVERWRITE_EXISTING Sample.cfg = false)
  /\ (exists w,
        _upload_file Sample.overwriting "uploads" id id id req Sample.world0
        = (Ok (Some (HttpResponse (mk_json true "report.pdf" (Some None))
                       (Some "application/json"))), w)
        /\ MemStorage.read (store w) "uploads/report.pdf" = Some "new"
        /\ MemStorage.exists_ (store w) "uploads/report.pdf_1" = false)
  /\ (exists w,
        _upload_file Sample.cfg "uploads" id id id req Sample.world0
        = (Ok (Some (HttpResponse (mk_json true "report.pdf_1" (Some None))
                       (Some "application/json"))), w)
        /\ MemStorage.read (store w) "uploads/report.pdf" = Some "old"
        /\ MemStorage.read (store w) "uploads/report.pdf_1" = Some "new").
Proof.
  cbv zeta. split; [repeat split |]. split.
  - destruct (upload_over_existing_file Sample.overwriting "uploads" id id id
                (Sample.post (mk_upload "report.pdf" "new"))
                (mk_upload "report.pdf" "new") Sample.world0
                "uploads/report.pdf_1"
                (<["uploads/report.pdf_1" := MemStorage.File "new"]>
                   Sample.store0)
                ltac:(reflexivity) ltac:(reflexivity)
                ltac:(vm_compute; reflexivity) ltac:(vm_compute; reflexivity)
                ltac:(vm_compute; reflexivity)) as [Hover _].
    destruct (Hover ltac:(reflexivity) _ _ ltac:(vm_compute; reflexivity)
                ltac:(vm_compute; reflexivity)) as [Hrun _].
    eexists. split; [exact Hrun |]. split; vm_compute; reflexivity.
  - destruct (upload_over_existing_file Sample.cfg "uploads" id id id
                (Sample.post (mk_upload "report.pdf" "new"))
                (mk_upload "report.pdf" "new") Sample.world0
                "uploads/report.pdf_1"
                (<["uploads/report.pdf_1" := MemStorage.File "new"]>
                   Sample.store0)
                ltac:(reflexivity) ltac:(reflexivity)
                ltac:(vm_compute; reflexivity) ltac:(vm_compute; reflexivity)
                ltac:(vm_compute; reflexivity)) as [_ Hkeep].
    destruct (Hkeep ltac:(reflexivity) _ ltac:(vm_compute; reflexivity))
      as (Hrun & _ & Hsame).
    eexists. split; [exact Hrun |]. split; [| vm_compute; reflexivity].
    exact (Hsame mem_save_never_overwrites mem_chmod_keeps_content).
Defined.

(** *** Further properties: the date windows *)

(** X1: the windows of the date filter are nested: a timestamp that passes
    past7days passes thismonth, and one that passes today passes
    thisyear. *)
Theorem filterdate_windows_nested (clk : Clock.t) (t : Z) :
  (truthy (get_filterdate clk "past7days" t) = true ->
   truthy (get_filterdate clk "thismonth" t) = true)
  /\ (truthy (get_filterdate clk "today" t) = true ->
      truthy (get_filterdate clk "thisyear" t) = true).
Proof.
  unfold get_filterdate; cbn [String.eqb Ascii.eqb Bool.eqb andb].
  rewrite !truthy_if_true, !andb_true_iff, !Z.eqb_eq, !Z.leb_le.
  split; [lia | tauto].
Qed.

Lemma filterdate_windows_nested_witness :
  (truthy (get_filterdate Sample.clk "past7days" (1709251199 - 86400)) = true
   /\ truthy (get_filterdate Sample.clk "thismonth" (1709251199 - 86400)) = true)
  /\ (truthy (get_filterdate Sample.clk "today" 1709251199) = true
      /\ truthy (get_filterdate Sample.clk "thisyear" 1709251199) = true).
Proof.
  split.
  - split; [reflexivity |].
    exact (proj1 (filterdate_windows_nested Sample.clk (1709251199 - 86400))
             eq_refl).
  - split; [reflexivity |].
    exact (proj2 (filterdate_windows_nested Sample.clk 1709251199) eq_refl).
Defined.

(** *** Further properties: the site cache *)

Section SiteCacheMore.
Context {Site : Type}.
Implicit Types (cache : gmap string (gmap (option string) Site)).

Lemma register_site_insert cache app (n : option string) (site : Site) :
  register_site app n site cache
  = <[app := <[n := site]> (default ∅ (cache !! app))]> cache.
Proof.
  unfold register_site. destruct (cache !! app) as [sites |] eqn:Hc.
  - now rewrite Hc.
  - rewrite lookup_insert_eq. cbn. now rewrite insert_insert_eq.
Qed.

(** X2: registrations under different keys commute, and registering the
    same site twice under a key is registering it once. *)
Theorem register_site_commutes cache app1 app2 (n1 n2 : option string)
    (s1 s2 : Site) :
  ((app1, n1) <> (app2, n2) ->
   register_site app1 n1 s1 (register_site app2 n2 s2 cache)
   = register_site app2 n2 s2 (register_site app1 n1 s1 cache))
  /\ register_site app1 n1 s1 (register_site app1 n1 s1 cache)
     = register_site app1 n1 s1 cache.
Proof.
  split.
  - intros Hne. rewrite !register_site_insert.
    destruct (decide (app1 = app2)) as [<- | Happ].
    + assert (Hn : n1 <> n2) by congruence.
      rewrite !lookup_insert_eq. cbn. rewrite !insert_insert_eq.
      f_equal. now apply insert_insert_ne.
    + rewrite !lookup_insert_ne by congruence.
      now apply insert_insert_ne.
  - rewrite !register_site_insert. rewrite lookup_insert_eq. cbn.
    now rewrite !insert_insert_eq.
Qed.

(** X3: for an application that has no site [get_site_dict] answers the
    empty dict without asking the resolver; once a site is registered for
    it the resolver is asked, and an application the resolver does not know
    makes the call raise [KeyError]. *)
Theorem get_site_dict_undeployed cache app (n : option string) (site : Site)
    (app_dict : gmap string (list (option string))) :
  cache !! app = None -> app_dict !! app = None ->
  get_site_dict app_dict app cache = Ok ∅
  /\ get_site_dict app_dict app (register_site app n site cache)
     = Raise (KeyError app).
Proof.
  intros Hc Hd. unfold get_site_dict. rewrite Hc. split; [reflexivity |].
  rewrite register_site_insert, lookup_insert_eq. now rewrite Hd.
Qed.

(** X4: [get_site_dict] shows a registered site exactly when its name is
    deployed, and a registration changes what is shown under no other
    name. *)
Theorem get_site_dict_registered cache app (n : option string) (site : Site)
    (app_dict : gmap string (list (option string)))
    (deployed : list (option string)) :
  app_dict !! app = Some deployed ->
  exists sites,
    get_site_dict app_dict app (register_site app n site cache) = Ok sites
    /\ sites !! n = (if bool_decide (n ∈ deployed) then Some site else None)
    /\ (forall k, k ∉ deployed -> sites !! k = None)
    /\ forall k, k <> n ->
         sites !! k
         = match get_site_dict app_dict app cache with
           | Ok before => before !! k
           | Raise _ => None
           end.
Proof.
  intros Hd. unfold get_site_dict.
  rewrite register_site_insert, lookup_insert_eq, Hd.
  eexists. split; [reflexivity |]. split; [| split].
  - case_bool_decide as Hin.
    + apply map_lookup_filter_Some. split; [apply lookup_insert_eq | exact Hin].
    + apply map_lookup_filter_None. right. intros x _. exact Hin.
  - intros k Hk. apply map_lookup_filter_None. right. intros x _. exact Hk.
  - intros k Hk.
    destruct (cache !! app) as [before |] eqn:Hc; cbn.
    + destruct (decide (k ∈ deployed)) as [Hin | Hout].
      * destruct (before !! k) as [x |] eqn:Hb.
        -- transitivity (Some x).
           ++ apply map_lookup_filter_Some.
              split; [now rewrite lookup_insert_ne | exact Hin].
           ++ symmetry. apply map_lookup_filter_Some. now split.
        -- transitivity (@None Site).
           ++ apply map_lookup_filter_None. left.
              now rewrite lookup_insert_ne.
           ++ symmetry. apply map_lookup_filter_None. now left.
      * transitivity (@None Site).
        -- apply map_lookup_filter_None. right. intros x _. exact Hout.
        -- symmetry. apply map_lookup_filter_None. right. intros x _.
           exact Hout.
    + rewrite lookup_empty. apply map_lookup_filter_None. left.
      rewrite lookup_insert_ne by congruence. apply lookup_empty.
Qed.

End SiteCacheMore.

Lemma register_site_commutes_witness :
  ("filebrowser"%string, Some "media"%string)
  <> ("filebrowser"%string, Some "filebrowser"%string)
  /\ register_site "filebrowser" (Some "media") 7%nat
       (register_site "filebrowser" (Some "filebrowser") 1%nat ∅)
     = register_site "filebrowser" (Some "filebrowser") 1%nat
         (register_site "filebrowser" (Some "media") 7%nat ∅).
Proof.
  assert (Hne : ("filebrowser"%string, Some "media"%string)
                <> ("filebrowser"%string, Some "filebrowser"%string))
    by discriminate.
  split; [exact Hne |].
  exact (proj1 (register_site_commutes ∅ "filebrowser" "filebrowser"
                  (Some "media") (Some "filebrowser") 7%nat 1%nat) Hne).
Defined.

Lemma get_site_dict_undeployed_witness :
  ((∅ : gmap string (gmap (option string) nat)) !! "filebrowser" = None
   /\ (∅ : gmap string (list (option string))) !! "filebrowser" = None)
  /\ get_site_dict ∅ "filebrowser"
       (∅ : gmap string (gmap (option string) nat)) = Ok ∅
  /\ get_site_dict ∅ "filebrowser"
       (register_site "filebrowser" (Some "filebrowser") 1%nat ∅)
     = Raise (KeyError "filebrowser").
Proof.
  split; [split; apply lookup_empty |].
  exact (get_site_dict_undeployed ∅ "filebrowser" (Some "filebrowser") 1%nat ∅
           (lookup_empty _) (lookup_empty _)).
Defined.

Lemma get_site_dict_registered_witness :
  let app_dict : gmap string (list (option string)) :=
    {["filebrowser" := [Some "filebrowser"]]} in
  app_dict !! "filebrowser" = Some [Some "filebrowser"]
  /\ exists sites,
       get_site_dict app_dict "filebrowser"
         (register_site "filebrowser" (Some "staging") 7%nat
            (register_site "filebrowser" (Some "filebrowser") 1%nat ∅))
       = Ok sites
       /\ sites !! Some "staging" = None
       /\ sites !! Some "filebrowser" = Some 1%nat.
Proof.
  cbv zeta. split; [reflexivity |].
  destruct (get_site_dict_registered
              (register_site "filebrowser" (Some "filebrowser") 1%nat ∅)
              "filebrowser" (Some "staging") 7%nat
              {["filebrowser" := [Some "filebrowser"]]}
              [Some "filebrowser"] (lookup_singleton_eq _ _))
    as (sites & Hrun & Hnew & _ & Hold).
  exists sites. split; [exact Hrun |]. split.
  - rewrite Hnew. reflexivity.
  - rewrite Hold by discriminate. reflexivity.
Defined.

(** *** Further properties: the default site *)

Section DefaultSite.
Context {Site : Type}.
Implicit Types (cache : gmap string (gmap (option string) Site)).

(** X5: asked for the application "filebrowser", [get_default_site] picks
    the name "filebrowser" when it is deployed and the first deployed name
    otherwise, and answers the site the cache binds to that name; it raises
    [IndexError] when nothing is deployed and [KeyError] when the cache has
    no site under the name. *)
Theorem get_default_site_resolution cache
    (app_dict : gmap string (list (option string)))
    (app_list : list (option string)) :
  app_dict !! "filebrowser" = Some app_list ->
  get_default_site app_dict "filebrowser" cache
  = match (if bool_decide (Some "filebrowser" ∈ app_list)
           then Some (Some "filebrowser") else head app_list) with
    | None => RaisedIndexError
    | Some name =>
        match cache_lookup "filebrowser" name cache with
        | Some site => Returned site
        | None => Raised (KeyError (name_key name))
        end
    end.
Proof.
  intros Hd. unfold get_default_site, get_site_dict, cache_lookup. rewrite Hd.
  assert (Hkeep : forall (name : option string)
                          (sites : gmap (option string) Site),
             name ∈ app_list ->
             filter (fun kv : option string * Site => kv.1 ∈ app_list) sites
               !! name
             = sites !! name).
  { intros name sites Hin. destruct (sites !! name) as [x |] eqn:Hs.
    - apply map_lookup_filter_Some. now split.
    - apply map_lookup_filter_None. now left. }
  case_bool_decide as Hin.
  - destruct (cache !! "filebrowser") as [sites |]; cbn.
    + now rewrite Hkeep.
    + now rewrite lookup_empty.
  - destruct app_list as [| first rest]; [reflexivity |]. cbn [head].
    destruct (cache !! "filebrowser") as [sites |]; cbn.
    + rewrite Hkeep by (left).
      reflexivity.
    + now rewrite lookup_empty.
Qed.

(** X6: [get_default_site] looks among the sites of the application
    "filebrowser" whatever application it is asked for: a site registered
    for another application changes none of its answers. *)
Theorem get_default_site_ignores_other_apps cache
    (app_dict : gmap string (list (option string))) (asked app : string)
    (n : option string) (site : Site) :
  app <> "filebrowser" ->
  get_default_site app_dict asked (register_site app n site cache)
  = get_default_site app_dict asked cache.
Proof.
  intros Hne. unfold get_default_site, get_site_dict.
  rewrite register_site_insert, lookup_insert_ne by assumption.
  reflexivity.
Qed.

End DefaultSite.

Lemma get_default_site_resolution_witness :
  let app_dict : gmap string (list (option string)) :=
    {["filebrowser" := [Some "media"; Some "staging"]]} in
  app_dict !! "filebrowser" = Some [Some "media"; Some "staging"]
  /\ get_default_site app_dict "filebrowser"
       (register_site "filebrowser" (Some "staging") 7%nat
          (register_site "filebrowser" (Some "media") 1%nat ∅))
     = Returned 1%nat.
Proof.
  cbv zeta. split; [reflexivity |].
  rewrite (get_default_site_resolution _ _ [Some "media"; Some "staging"]
             (lookup_singleton_eq _ _)).
  reflexivity.
Defined.

Lemma get_default_site_ignores_other_apps_witness :
  "media"%string <> "filebrowser"%string
  /\ get_default_site {["media" := [Some "media"]]} "media"
       (register_site "media" (Some "media") 7%nat ∅)
     = (Raised (KeyError "media") : outcome nat).
Proof.
  split; [discriminate |].
  rewrite (get_default_site_ignores_other_apps ∅ _ "media" "media"
             (Some "media") 7%nat ltac:(discriminate)).
  reflexivity.
Defined.

(** *** Further properties: breadcrumbs *)

Lemma string_app_assoc (a b c : string) :
  ((a ++ b) ++ c)%string = (a ++ b ++ c)%string.
Proof.
  induction a as [| d a IH]; [reflexivity |].
  rewrite !append_cons. now rewrite IH.
Qed.

Lemma split_char_not_nil (sep : ascii) (s : string) : split_char sep s <> [].
Proof.
  destruct s as [| c s]; cbn; [discriminate |].
  destruct (Ascii.eqb c sep); [discriminate |].
  destruct (split_char sep s); discriminate.
Qed.

Lemma split_char_no_sep (x : string) :
  Str.contains "/" x = false -> split_char "/" x = [x].
Proof.
  induction x as [| c x IH]; [reflexivity |].
  rewrite contains_slash_cons. intros Hc.
  apply orb_false_iff in Hc as [Hc Hx].
  cbn [split_char]. rewrite Hc, (IH Hx). reflexivity.
Qed.

Lemma split_char_app_sep (x y : string) :
  Str.contains "/" x = false ->
  split_char "/" (x ++ String "/" y) = x :: split_char "/" y.
Proof.
  induction x as [| c x IH].
  - intros _. rewrite append_empty. reflexivity.
  - rewrite contains_slash_cons. intros Hc.
    apply orb_false_iff in Hc as [Hc Hx].
    rewrite append_cons. cbn [split_char]. rewrite Hc, (IH Hx). reflexivity.
Qed.

Lemma split_join (segs : list string) :
  segs <> [] -> Forall segment segs ->
  split_char "/" (Str.join "/" segs) = segs.
Proof.
  induction segs as [| x [| y rest] IH]; intros Hne Hall; [congruence | |].
  - apply Forall_cons in Hall as [[_ Hx] _]. cbn [Str.join].
    now apply split_char_no_sep.
  - apply Forall_cons in Hall as [[_ Hx] Hall].
    change (Str.join "/" (x :: y :: rest))
      with (x ++ "/" ++ Str.join "/" (y :: rest))%string.
    norm_append. rewrite split_char_app_sep by assumption.
    f_equal. apply IH; [discriminate | assumption].
Qed.

Lemma join_snoc (pre : list string) (item : string) :
  pre <> [] ->
  Str.join "/" (pre ++ [item]) = (Str.join "/" pre ++ "/" ++ item)%string.
Proof.
  induction pre as [| x [| y rest] IH]; intros Hne; [congruence | reflexivity |].
  change (Str.join "/" ((x :: y :: rest) ++ [item]))
    with (x ++ "/" ++ Str.join "/" ((y :: rest) ++ [item]))%string.
  rewrite IH by discriminate.
  change (Str.join "/" (x :: y :: rest))
    with (x ++ "/" ++ Str.join "/" (y :: rest))%string.
  now rewrite !string_app_assoc.
Qed.

Lemma endswith_char_app_r (a b : string) (c : ascii) :
  b <> "" -> Str.endswith_char (a ++ b) c = Str.endswith_char b c.
Proof.
  intros Hb. induction a as [| d a IH]; [reflexivity |].
  rewrite append_cons. cbn [Str.endswith_char].
  destruct (a ++ b)%string as [| e r] eqn:Hab; [| exact IH].
  destruct a; [rewrite append_empty in Hab; congruence | discriminate].
Qed.

Lemma segment_no_trailing_slash (s : string) :
  Str.contains "/" s = false -> Str.endswith_char s "/" = false.
Proof.
  induction s as [| c s IH]; [reflexivity |].
  rewrite contains_slash_cons. intros Hc.
  apply orb_false_iff in Hc as [Hc Hs]. cbn [Str.endswith_char].
  destruct s; [exact Hc | now apply IH].
Qed.

Lemma join_segments_shape (pre : list string) :
  pre <> [] -> Forall segment pre ->
  Str.join "/" pre <> "" /\ Str.endswith_char (Str.join "/" pre) "/" = false.
Proof.
  induction pre as [| x [| y rest] IH]; intros Hne Hall; [congruence | |].
  - apply Forall_cons in Hall as [[Hx Hs] _]. cbn [Str.join].
    split; [exact Hx | now apply segment_no_trailing_slash].
  - apply Forall_cons in Hall as [[Hx Hs] Hall].
    destruct (IH ltac:(discriminate) Hall) as [Hj He].
    change (Str.join "/" (x :: y :: rest))
      with (x ++ "/" ++ Str.join "/" (y :: rest))%string.
    split.
    + destruct x; [congruence | discriminate].
    + rewrite endswith_char_app_r by (norm_append; discriminate).
      norm_append. cbn [Str.endswith_char].
      destruct (Str.join "/" (y :: rest)); [congruence | exact He].
Qed.

Lemma path_join_segment (dir_query item : string) :
  dir_query <> "" -> Str.endswith_char dir_query "/" = false ->
  Str.contains "/" item = false ->
  Str.path_join dir_query item = (dir_query ++ "/" ++ item)%string.
Proof.
  intros Hd He Hi. unfold Str.path_join, Str.startswith.
  assert (Hstart : String.prefix "/" item = false).
  { destruct item as [| c s]; [reflexivity |].
    rewrite prefix_slash. rewrite contains_slash_cons in Hi.
    now apply orb_false_iff in Hi as [Hc _]. }
  rewrite Hstart, He. apply truthy_true_iff in Hd. now rewrite Hd.
Qed.

Lemma breadcrumbs_loop_names (items : list string) (dir_query : string)
    (acc : list (string * string)) :
  map fst (breadcrumbs_loop items dir_query acc) = map fst acc ++ items.
Proof.
  revert dir_query acc. induction items as [| item rest IH];
    intros dir_query acc; cbn [breadcrumbs_loop].
  - now rewrite app_nil_r.
  - rewrite IH, map_app. cbn. now rewrite <- app_assoc.
Qed.

Lemma breadcrumbs_loop_segments (rest pre : list string)
    (acc : list (string * string)) :
  pre <> [] -> Forall segment (pre ++ rest) ->
  breadcrumbs_loop rest (Str.join "/" pre) acc
  = acc ++ imap (fun k item =>
                   (item, Str.join "/" (pre ++ take (S k) rest))) rest.
Proof.
  revert pre acc. induction rest as [| item rest IH]; intros pre acc Hne Hall;
    cbn [breadcrumbs_loop].
  - now rewrite app_nil_r.
  - apply Forall_app in Hall as [Hpre Hrest].
    pose proof Hrest as Hrest'. apply Forall_cons in Hrest' as [[_ Hitem] Htail].
    destruct (join_segments_shape pre Hne Hpre) as [Hj He].
    rewrite path_join_segment by assumption.
    rewrite <- join_snoc by assumption.
    rewrite IH.
    + rewrite <- app_assoc. f_equal. cbn [app imap take].
      f_equal. apply imap_ext. intros k x _. cbn.
      now rewrite <- app_assoc.
    + now destruct pre.
    + rewrite <- app_assoc. cbn [app]. apply Forall_app. now split.
Qed.

Lemma join_split (s : string) : Str.join "/" (split_char "/" s) = s.
Proof.
  induction s as [| c s IH]; [reflexivity |].
  cbn [split_char]. pose proof (split_char_not_nil "/" s) as Hne.
  destruct (split_char "/" s) as [| piece pieces] eqn:Hs; [congruence |].
  destruct (Ascii.eqb_spec c "/") as [-> | Hc].
  - change (Str.join "/" ("" :: piece :: pieces))
      with ("" ++ "/" ++ Str.join "/" (piece :: pieces))%string.
    rewrite IH. reflexivity.
  - destruct pieces as [| q pieces].
    + cbn [Str.join] in *. now rewrite IH.
    + change (Str.join "/" (String c piece :: q :: pieces))
        with (String c piece ++ "/" ++ Str.join "/" (q :: pieces))%string.
      rewrite append_cons. f_equal. exact IH.
Qed.

(** X7: the breadcrumbs of the empty path are empty; those of any other
    path are named by the pieces of the path between its slashes, in
    order, so that the names joined by slashes give the path back. The
    query plays no part. *)
Theorem get_breadcrumbs_names (query : gmap string string) (path : string) :
  get_breadcrumbs query "" = []
  /\ (path <> "" ->
      map fst (get_breadcrumbs query path) = split_char "/" path
      /\ Str.join "/" (map fst (get_breadcrumbs query path)) = path
      /\ get_breadcrumbs query path <> []).
Proof.
  split; [reflexivity |].
  intros Hne. unfold get_breadcrumbs.
  apply truthy_true_iff in Hne. rewrite Hne.
  rewrite breadcrumbs_loop_names. cbn [map app].
  split; [reflexivity |]. split; [apply join_split |].
  intros Hnil. apply (f_equal (map fst)) in Hnil.
  rewrite breadcrumbs_loop_names in Hnil. cbn [map app] in Hnil.
  now apply (split_char_not_nil "/" path).
Qed.

Lemma get_breadcrumbs_names_witness :
  ("/docs//a"%string <> ""%string)
  /\ get_breadcrumbs ∅ "/docs//a"
     = [("", ""); ("docs", "docs"); ("", "docs/"); ("a", "docs/a")]
  /\ Str.join "/" (map fst (get_breadcrumbs ∅ "/docs//a")) = "/docs//a".
Proof.
  split; [discriminate |]. split; [reflexivity |].
  exact (proj1 (proj2 (proj2 (get_breadcrumbs_names ∅ "/docs//a")
                         ltac:(discriminate)))).
Defined.

(** X8: for a path made of non-empty segments separated by single slashes,
    each breadcrumb pairs a segment with the path up to and including that
    segment; the last breadcrumb carries the whole path. *)
Theorem get_breadcrumbs_segments (query : gmap string string)
    (segs : list string) :
  segs <> [] -> Forall segment segs ->
  get_breadcrumbs query (Str.join "/" segs)
  = imap (fun k item => (item, Str.join "/" (take (S k) segs))) segs
  /\ snd <$> last (get_breadcrumbs query (Str.join "/" segs))
     = Some (Str.join "/" segs).
Proof.
  intros Hne Hall.
  assert (Hcrumbs : get_breadcrumbs query (Str.join "/" segs)
            = imap (fun k item => (item, Str.join "/" (take (S k) segs))) segs).
  { unfold get_breadcrumbs.
    destruct (join_segments_shape segs Hne Hall) as [Hj _].
    apply truthy_true_iff in Hj. rewrite Hj.
    rewrite split_join by assumption.
    destruct segs as [| first rest]; [congruence |].
    pose proof Hall as Hall'. apply Forall_cons in Hall' as [[Hf Hs] _].
    cbn [breadcrumbs_loop app].
    assert (Hfirst : Str.path_join "" first = first).
    { unfold Str.path_join, Str.startswith.
      destruct first as [| c s]; [congruence |].
      rewrite prefix_slash. rewrite contains_slash_cons in Hs.
      apply orb_false_iff in Hs as [-> _]. reflexivity. }
    rewrite Hfirst.
    change first with (Str.join "/" [first]) at 1.
    rewrite breadcrumbs_loop_segments; [| discriminate | exact Hall].
    reflexivity. }
  split; [exact Hcrumbs |].
  rewrite Hcrumbs.
  destruct (lookup_lt_is_Some_2 segs (pred (length segs))) as [x Hx].
  { destruct segs; [congruence | cbn; lia]. }
  rewrite last_lookup, length_imap.
  rewrite list_lookup_imap, Hx. cbn.
  f_equal. f_equal. apply take_ge.
  destruct segs; [congruence | cbn; lia].
Qed.

Lemma get_breadcrumbs_segments_witness :
  (["docs"; "2024"; "reports"]%string <> []
   /\ Forall segment ["docs"; "2024"; "reports"]%string)
  /\ get_breadcrumbs ∅ "docs/2024/reports"
     = [("docs", "docs"); ("2024", "docs/2024");
        ("reports", "docs/2024/reports")].
Proof.
  assert (Hall : Forall segment ["docs"; "2024"; "reports"]%string).
  { repeat constructor; discriminate. }
  split; [split; [discriminate | exact Hall] |].
  exact (proj1 (get_breadcrumbs_segments ∅ ["docs"; "2024"; "reports"]%string
                  ltac:(discriminate) Hall)).
Defined.

(** *** Further properties: what [browse] lists *)

(** [browse] gets a page only with a positive page size. *)
Lemma browse_page_ok_positive (files : list FileObject) (pp : Z)
    (page_nr : string) (pg : Paginator.Page FileObject) :
  browse_page (Paginator.new files pp) page_nr = Ok pg -> 0 < pp.
Proof.
  intros Hpg. destruct (Z_le_gt_dec pp 0) as [Hle | Hgt]; [exfalso | lia].
  assert (Hnp : match Paginator.num_pages (Paginator.new files pp) with
                | Ok np => np <= 0
                | Raise _ => True
                end).
  { unfold Paginator.num_pages, Paginator.new, Paginator.count; cbn.
    rewrite andb_false_r. destruct (pp =? 0) eqn:Hz; [exact I |].
    apply Z.eqb_neq in Hz. unfold Paginator.ceil_div.
    rewrite <- (Z.opp_involutive pp) at 1. rewrite Z.div_opp_opp by lia.
    pose proof (Z.div_pos (Z.max 1 (Z.of_nat (length files) - 0)) (- pp)
                  ltac:(lia) ltac:(lia)).
    lia. }
  unfold browse_page, Paginator.page, Paginator.validate_number,
    Paginator.page_int in Hpg.
  destruct (Paginator.num_pages (Paginator.new files pp)) as [np | e];
    cbn [rbind] in Hpg.
  - assert (Hlast : (if np <? 1 then @Raise (Paginator.Page FileObject) EmptyPage
                     else if np <? np then Raise EmptyPage
                          else Ok (Paginator.page_of (Paginator.new files pp) np))
                    = Raise EmptyPage).
    { destruct (np <? 1) eqn:H1; [reflexivity | apply Z.ltb_ge in H1; lia]. }
    destruct (PyInt.int page_nr) as [n |]; cbn [rbind] in Hpg.
    + destruct (n <? 1) eqn:H1; cbn [rbind] in Hpg.
      * rewrite Hlast in Hpg. discriminate.
      * apply Z.ltb_ge in H1.
        destruct (np <? n) eqn:H2; [| apply Z.ltb_ge in H2; lia].
        cbn [rbind] in Hpg. rewrite Hlast in Hpg. discriminate.
    + rewrite Hlast in Hpg. discriminate.
  - destruct (PyInt.int page_nr) as [n |]; cbn [rbind] in Hpg;
      [destruct (n <? 1); cbn [rbind] in Hpg |];
      try discriminate; destruct e; discriminate.
Qed.

Section BrowseMore.
Variable E : re_engine.
Variable cfg : settings.
Variable clk : Clock.t.



End BrowseMore.


Section BrowseFilters.
Variable E : re_engine.
Variable cfg : settings.
Variable clk : Clock.t.

(** X10: a query without search term and without type, date and format
    filter (each missing or empty) shows the whole listing: the files are
    the listing and the two counts are equal. *)
Theorem browse_without_filters_lists_all (storage_view : string -> dirtree)
    (directory : string) (GET : gmap string string) (ctx : browse_context) :
  browse E cfg clk storage_view directory GET = Ok ctx ->
  truthy_opt (GET !! "q") = false ->
  truthy_opt (GET !! "filter_type") = false ->
  truthy_opt (GET !! "filter_date") = false ->
  truthy_opt (GET !! "type") = false ->
  ctx_files ctx = ctx_listing ctx
  /\ results_current (ctx_filelisting ctx) = results_total (ctx_filelisting ctx).
Proof.
  intros Hb Hq Hft Hfd Hff.
  apply browse_ok_inv in Hb as (filter_re & re_q & _ & Hreq & Hrest).
  cbv zeta in Hrest. destruct Hrest as (_ & Hfiles & Hfl & _).
  rewrite Hq in Hreq. subst re_q.
  assert (Hall : ctx_files ctx = ctx_listing ctx).
  { rewrite Hfiles at 1. apply forallb_filter_id. apply forallb_forall.
    intros f _. unfold browse_append. rewrite Hft, Hfd, Hff. cbn.
    now destruct (String.eqb (filetype f) "Folder"). }
  split; [exact Hall |].
  rewrite Hfl. cbn [set_results results_current results_total].
  now rewrite Hall.
Qed.

(** X11: the filters combine as a conjunction with the folder override on
    top: an entry of the listing is kept exactly when it is a folder, or
    it passes each filter that is given, the type filter by equality of
    file types, the date filter by [get_filterdate] on the entry's date (0
    for a missing date), the format filter by containment in the entry's
    format, and the search by the compiled term matching the lowered
    name. *)
Theorem browse_filters_conjunction (storage_view : string -> dirtree)
    (directory : string) (GET : gmap string string) (ctx : browse_context) :
  browse E cfg clk storage_view directory GET = Ok ctx ->
  exists re_q : option (re_pattern E),
    (truthy_opt (GET !! "q") = false -> re_q = None)
    /\ (truthy_opt (GET !! "q") = true ->
        exists c,
          re_q = Some c
          /\ re_compile E (Str.lower (default "" (GET !! "q"))) re_M = Ok c)
    /\ forall f,
         In f (ctx_files ctx)
         <-> In f (ctx_listing ctx)
             /\ (filetype f = "Folder"
                 \/ ((truthy_opt (GET !! "filter_type") = false
                      \/ GET !! "filter_type" = Some (filetype f))
                     /\ (truthy_opt (GET !! "filter_date") = false
                         \/ get_filterdate clk
                              (default "" (GET !! "filter_date"))
                              (default 0 (date f)) = "true")
                     /\ (truthy_opt (GET !! "type") = false
                         \/ Str.contains (default "" (GET !! "type"))
                              (format f) = true)
                     /\ match re_q with
                        | Some c =>
                            re_search E c (Str.lower (filename f)) = true
                        | None => True
                        end)).
Proof.
  intros Hb.
  apply browse_ok_inv in Hb as (filter_re & re_q & _ & Hreq & Hrest).
  cbv zeta in Hrest. destruct Hrest as (_ & Hfiles & _).
  exists re_q. split; [| split].
  - intros Hq. now rewrite Hq in Hreq.
  - intros Hq. rewrite Hq in Hreq. destruct Hreq as (c & Hc & ->). eauto.
  - intros f. rewrite Hfiles, filter_In.
    apply and_iff_compat_l.
    unfold browse_append, date_or_0.
    destruct (String.eqb_spec (filetype f) "Folder") as [Hfold | Hnf];
      [tauto |].
    assert (Hdate : forall fd t,
              truthy (get_filterdate clk fd t) = true
              <-> get_filterdate clk fd t = "true").
    { intros fd t. destruct (get_filterdate_values clk fd t) as [-> | ->];
        cbn; intuition discriminate. }
    replace (match date f with Some d => d | None => 0 end)
      with (default 0 (date f)) by now destruct (date f).
    set (pt := negb (truthy_opt (GET !! "filter_type"))
               || bool_decide (Some (filetype f) = GET !! "filter_type")).
    set (pd := negb (truthy_opt (GET !! "filter_date"))
               || truthy (get_filterdate clk (default "" (GET !! "filter_date"))
                            (default 0 (date f)))).
    set (pf := negb (truthy_opt (GET !! "type"))
               || Str.contains (default "" (GET !! "type")) (format f)).
    assert (Hpt : pt = true
                  <-> truthy_opt (GET !! "filter_type") = false
                      \/ GET !! "filter_type" = Some (filetype f)).
    { unfold pt. rewrite orb_true_iff, negb_true_iff, bool_decide_eq_true.
      intuition congruence. }
    assert (Hpd : pd = true
                  <-> truthy_opt (GET !! "filter_date") = false
                      \/ get_filterdate clk (default "" (GET !! "filter_date"))
                           (default 0 (date f)) = "true").
    { unfold pd. now rewrite orb_true_iff, negb_true_iff, Hdate. }
    assert (Hpf : pf = true
                  <-> truthy_opt (GET !! "type") = false
                      \/ Str.contains (default "" (GET !! "type")) (format f)
                         = true).
    { unfold pf. now rewrite orb_true_iff, negb_true_iff. }
    rewrite <- Hpt, <- Hpd, <- Hpf.
    destruct re_q as [c |].
    + destruct (re_search E c (Str.lower (filename f))); cbn [negb];
        destruct pt, pd, pf; cbn; intuition congruence.
    + destruct pt, pd, pf; cbn; intuition congruence.
Qed.

End BrowseFilters.

Lemma browse_without_filters_witness :
  exists ctx,
    browse ReFragment.engine Sample.cfg Sample.clk Sample.storage_view "uploads"
      (Sample.query [("q", ""); ("p", "1")]) = Ok ctx
    /\ ctx_files ctx = [Sample.folder "a"; Sample.document "abc"]
    /\ ctx_files ctx = ctx_listing ctx.
Proof.
  eexists. split; [reflexivity |]. split; [reflexivity |].
  exact (proj1 (browse_without_filters_lists_all ReFragment.engine Sample.cfg
                  Sample.clk Sample.storage_view "uploads"
                  (Sample.query [("q", ""); ("p", "1")]) _
                  eq_refl eq_refl eq_refl eq_refl eq_refl)).
Defined.

Lemma browse_filters_conjunction_witness :
  exists ctx,
    browse ReFragment.engine Sample.cfg Sample.clk Sample.storage_view "uploads"
      (Sample.query [("filter_type", "Document"); ("type", "fil")]) = Ok ctx
    /\ ctx_files ctx = [Sample.folder "a"; Sample.document "abc"]
    /\ In (Sample.document "abc") (ctx_files ctx).
Proof.
  eexists. split; [reflexivity |]. split; [reflexivity |].
  destruct (browse_filters_conjunction ReFragment.engine Sample.cfg Sample.clk
              Sample.storage_view "uploads"
              (Sample.query [("filter_type", "Document"); ("type", "fil")])
              _ eq_refl) as (re_q & Hnone & _ & Hkeep).
  apply Hkeep. split.
  - vm_compute. right. left. reflexivity.
  - right. rewrite (Hnone eq_refl).
    split; [right; reflexivity |]. split; [left; reflexivity |].
    split; [right; reflexivity | exact I].
Defined.

(** X12: filtering and paging keep the order of the listing: the files are
    a subsequence of the listing, and the page handed to the template is a
    run of consecutive files, at most LIST_PER_PAGE of them, numbered from 1
    up to the page count. *)
Theorem browse_page_is_slice (E : re_engine) (cfg : settings) (clk : Clock.t)
    (storage_view : string -> dirtree) (directory : string)
    (GET : gmap string string) (ctx : browse_context) :
  browse E cfg clk storage_view directory GET = Ok ctx ->
  sublist (ctx_files ctx) (ctx_listing ctx)
  /\ exists before after,
       ctx_files ctx
       = before ++ Paginator.page_object_list (ctx_page ctx) ++ after
       /\ Z.of_nat (length before)
          = (Paginator.number (ctx_page ctx) - 1) * LIST_PER_PAGE cfg
       /\ Z.of_nat (length (Paginator.page_object_list (ctx_page ctx)))
          <= LIST_PER_PAGE cfg
       /\ 1 <= Paginator.number (ctx_page ctx)
       /\ Paginator.num_pages (ctx_p ctx) <> Ok 0
       /\ (forall np, Paginator.num_pages (ctx_p ctx) = Ok np ->
                      Paginator.number (ctx_page ctx) <= np).
Proof.
  intros Hb.
  apply browse_ok_inv in Hb as (filter_re & re_q & _ & _ & Hrest).
  cbv zeta in Hrest. destruct Hrest as (_ & Hfiles & _ & Hp & Hpage).
  split.
  - rewrite Hfiles. generalize (ctx_listing ctx) as l.
    induction l as [| f l IH]; cbn; [constructor |].
    destruct (browse_append _ _ _ _ _ _ f); now constructor.
  - rewrite Hp in Hpage |- *.
    pose proof (browse_page_ok_positive _ _ _ _ Hpage) as Hpp.
    set (files := ctx_files ctx) in *. set (pp := LIST_PER_PAGE cfg) in *.
    rewrite browse_page_new in Hpage by assumption.
    set (np := Paginator.ceil_div (Z.max 1 (Z.of_nat (length files))) pp) in *.
    pose proof (ceil_div_bounds (Z.max 1 (Z.of_nat (length files))) pp Hpp
                  ltac:(lia)) as (Hnp1 & Hlo & Hhi).
    fold np in Hnp1, Hlo, Hhi.
    assert (Hn : exists n, 1 <= n <= np
                 /\ ctx_page ctx = Paginator.page_of (Paginator.new files pp) n).
    { injection Hpage as <-.
      destruct (PyInt.int (default "1" (GET !! "p"))) as [n |].
      - destruct ((n <? 1) || (np <? n)) eqn:Hout.
        + exists np. split; [lia | reflexivity].
        + apply orb_false_iff in Hout as [H1 H2].
          apply Z.ltb_ge in H1, H2. exists n. split; [lia | reflexivity].
      - exists np. split; [lia | reflexivity]. }
    destruct Hn as (n & Hrange & ->).
    pose proof (num_pages_new files pp Hpp) as Hnum. fold np in Hnum.
    rewrite Hnum.
    unfold Paginator.page_of, Paginator.new, Paginator.count.
    cbn [Paginator.object_list Paginator.per_page Paginator.orphans
         Paginator.page_object_list Paginator.number].
    rewrite Z.add_0_r. unfold Paginator.slice.
    set (bottom := (n - 1) * pp).
    set (top := if Z.of_nat (length files) <=? bottom + pp
                then Z.of_nat (length files) else bottom + pp).
    assert (Hbottom : 0 <= bottom <= Z.of_nat (length files)) by (unfold bottom; nia).
    assert (Htop : bottom <= top <= bottom + pp
                   /\ top <= Z.of_nat (length files)).
    { unfold top. destruct (Z.of_nat (length files) <=? bottom + pp) eqn:Hle;
        [apply Z.leb_le in Hle | apply Z.leb_gt in Hle]; lia. }
    exists (take (Z.to_nat bottom) files),
           (drop (Z.to_nat (top - bottom)) (drop (Z.to_nat bottom) files)).
    split; [| split; [| split; [| split; [| split]]]].
    + now rewrite take_drop, take_drop.
    + rewrite length_take. lia.
    + rewrite length_take, length_drop. lia.
    + lia.
    + intros [= Hz]. lia.
    + intros np' [= <-]. lia.
Qed.

Lemma browse_page_is_slice_witness :
  exists ctx,
    browse ReFragment.engine Sample.cfg Sample.clk Sample.storage_view "uploads"
      (Sample.query [("p", "7")]) = Ok ctx
    /\ ctx_page ctx
       = Paginator.mk_page [Sample.folder "a"; Sample.document "abc"] 1
    /\ sublist (ctx_files ctx) (ctx_listing ctx).
Proof.
  eexists. split; [reflexivity |]. split; [reflexivity |].
  exact (proj1 (browse_page_is_slice ReFragment.engine Sample.cfg Sample.clk
                  Sample.storage_view "uploads" (Sample.query [("p", "7")])
                  _ eq_refl)).
Defined.

(** *** Further properties: the action registry *)

Lemma actions_in_iff (self : FileBrowserSite) (n : string) (a : action_ref) :
  List.NoDup (ODict.keys (_actions self)) ->
  In (n, a) (actions self) <-> ODict.get n (_actions self) = Some a.
Proof.
  intros Hnd.
  pose proof (sort_by_name_perm (ODict.items (_actions self))) as Hperm.
  fold (actions self) in Hperm. split.
  - intros Hin. apply odict_in_get; [exact Hnd |].
    eapply Permutation_in; [exact Hperm | exact Hin].
  - intros Hget. apply odict_get_in in Hget.
    eapply Permutation_in; [symmetry; exact Hperm | exact Hget].
Qed.

Lemma actions_names (self : FileBrowserSite) (n : string) :
  In n (map fst (actions self)) <-> In n (ODict.keys (_actions self)).
Proof.
  pose proof (sort_by_name_perm (ODict.items (_actions self))) as Hperm.
  fold (actions self) in Hperm.
  split; intros Hin; (eapply Permutation_in; [| exact Hin]);
    apply Permutation_map; [exact Hperm | symmetry; exact Hperm].
Qed.

Lemma applicable_actions_filter (h : heap) (self : FileBrowserSite)
    (fileobject : FileObject) :
  reachable (h, self) ->
  applicable_actions h self fileobject
  = Ok (List.filter (action_applies h fileobject) (actions self)).
Proof.
  intros Hr. apply reachable_inv in Hr as (_ & Hap & _). cbn [fst snd] in Hap.
  unfold applicable_actions. rewrite applicable_loop_filter; [reflexivity |].
  intros n a Hin. apply (Hap n a).
  eapply Permutation_in; [apply sort_by_name_perm | exact Hin].
Qed.

(** X13: registering an action under a name already in use replaces the
    action bound to the name, in the active listing and for [get_action],
    and changes the binding of no other name. *)
Theorem add_action_replaces (h : heap) (self : FileBrowserSite)
    (action : action_ref) (name : option string) :
  reachable (h, self) ->
  let registered := snd (add_action action name (h, self)) in
  let n := action_name h action name in
  (forall a, In (n, a) (actions registered) <-> a = action)
  /\ get_action n registered = Ok action
  /\ forall n' a,
       n' <> n ->
       (In (n', a) (actions registered) <-> In (n', a) (actions self))
       /\ get_action n' registered = get_action n' self.
Proof.
  intros Hr registered n.
  apply reachable_inv in Hr as (Hnd & _ & _). cbn [fst snd] in Hnd.
  assert (Hnd' : List.NoDup (ODict.keys (_actions registered))).
  { unfold registered. rewrite add_action_site. cbn [_actions].
    now apply odict_nodup_set. }
  assert (Hacts : _actions registered = ODict.set n action (_actions self)).
  { unfold registered. now rewrite add_action_site. }
  assert (Hglob : _global_actions registered
                  = ODict.set n action (_global_actions self)).
  { unfold registered. now rewrite add_action_site. }
  split; [| split].
  - intros a. rewrite actions_in_iff by assumption.
    rewrite Hacts, odict_get_set_eq. split; congruence.
  - unfold get_action, ODict.subscript.
    now rewrite Hglob, odict_get_set_eq.
  - intros n' a Hne. split.
    + rewrite !actions_in_iff by assumption.
      now rewrite Hacts, odict_get_set_ne by congruence.
    + unfold get_action, ODict.subscript.
      now rewrite Hglob, odict_get_set_ne by congruence.
Qed.

Lemma add_action_replaces_witness :
  reachable (add_action 0%nat (Some "flip") (Sample.heap0, Sample.site0))
  /\ actions (snd (add_action 1%nat (Some "flip")
                     (add_action 0%nat (Some "flip")
                        (Sample.heap0, Sample.site0))))
     = [("flip", 1%nat)]
  /\ get_action "flip"
       (snd (add_action 1%nat (Some "flip")
               (add_action 0%nat (Some "flip") (Sample.heap0, Sample.site0))))
     = Ok 1%nat.
Proof.
  assert (Hr : reachable
                 (add_action 0%nat (Some "flip") (Sample.heap0, Sample.site0))).
  { apply reach_add, reach_init. }
  split; [exact Hr |]. split; [reflexivity |].
  exact (proj1 (proj2 (add_action_replaces _ _ 1%nat (Some "flip") Hr))).
Defined.

(** X14: [add_action] fills in only what is missing: an action keeps its
    name, a [short_description] and an [applies_to] it already has, and no
    other action is touched; so registering the same action a second time
    under the same name changes neither the site nor any action. *)
Theorem add_action_fills_missing_only (h : heap) (self : FileBrowserSite)
    (action : action_ref) (name : option string) :
  let h' := fst (add_action action name (h, self)) in
  let self' := snd (add_action action name (h, self)) in
  __name__ (h' action) = __name__ (h action)
  /\ short_description (h' action)
     = Some (default (Str.capitalize
                        (Str.replace_char "_" " " (__name__ (h action))))
                     (short_description (h action)))
  /\ (forall applies, applies_to (h action) = Some applies ->
                      applies_to (h' action) = Some applies)
  /\ (forall r, r <> action -> h' r = h r)
  /\ snd (add_action action name (h', self')) = self'
  /\ forall r, fst (add_action action name (h', self')) r = h' r.
Proof.
  cbv zeta.
  assert (Hheap :
    forall (h0 : heap) (s0 : FileBrowserSite),
      let h1 := fst (add_action action name (h0, s0)) in
      __name__ (h1 action) = __name__ (h0 action)
      /\ short_description (h1 action)
         = Some (default (Str.capitalize
                            (Str.replace_char "_" " " (__name__ (h0 action))))
                         (short_description (h0 action)))
      /\ (forall applies, applies_to (h0 action) = Some applies ->
                          applies_to (h1 action) = Some applies)
      /\ (applies_to (h1 action) <> None)
      /\ (short_description (h0 action) <> None ->
          applies_to (h0 action) <> None -> h1 action = h0 action)
      /\ forall r, r <> action -> h1 r = h0 r).
  { intros h0 s0. cbn [add_action fst]. unfold heap_set.
    destruct (short_description (h0 action)) as [d |] eqn:Hsd;
      [| rewrite Nat.eqb_refl; cbn [applies_to]];
      destruct (applies_to (h0 action)) as [ap |] eqn:Hap;
      cbn [fst]; rewrite ?Nat.eqb_refl;
      cbn [__name__ short_description applies_to default from_option id];
      rewrite ?Hsd, ?Hap;
      (repeat split; try congruence;
       try (intros r Hr; apply Nat.eqb_neq in Hr; now rewrite ?Hr)). }
  destruct (Hheap h self) as (Hn & Hsd & Hap & Hap' & _ & Hother).
  cbv zeta in *.
  set (h' := fst (add_action action name (h, self))) in *.
  set (self' := snd (add_action action name (h, self))) in *.
  split; [exact Hn |]. split; [exact Hsd |]. split; [exact Hap |].
  split; [exact Hother |].
  destruct (Hheap h' self') as (Hn2 & _ & _ & _ & Hsame & Hother2).
  cbv zeta in *.
  assert (Hname : action_name h' action name = action_name h action name).
  { unfold action_name. now rewrite Hn. }
  split.
  - rewrite add_action_site. unfold self' at 1 2 3 4.
    rewrite add_action_site.
    cbn [site_name site_app_name _actions _global_actions]. rewrite Hname.
    unfold self'. rewrite add_action_site.
    assert (Hset : forall d : ODict.t action_ref,
              ODict.set (action_name h action name) action
                (ODict.set (action_name h action name) action d)
              = ODict.set (action_name h action name) action d).
    { intros d. induction d as [| [k v] d IH]; cbn.
      - now rewrite String.eqb_refl.
      - destruct (String.eqb k (action_name h action name)) eqn:Hk; cbn.
        + now rewrite String.eqb_refl.
        + now rewrite Hk, IH. }
    now rewrite !Hset.
  - intros r. destruct (Nat.eq_dec r action) as [-> | Hr].
    + apply Hsame; [rewrite Hsd; discriminate | exact Hap'].
    + now apply Hother2.
Qed.

(** X15: [disable_action] raises [KeyError] exactly for the names that are
    not in the active listing and returns for the others; after it has
    returned, the name is inactive, so disabling it once more raises. *)
Theorem disable_action_key_error (h : heap) (self : FileBrowserSite)
    (n : string) :
  reachable (h, self) ->
  (disable_action n self = Raise (KeyError n)
   <-> ~ In n (map fst (actions self)))
  /\ ((exists self', disable_action n self = Ok self')
      <-> In n (map fst (actions self)))
  /\ forall self', disable_action n self = Ok self' ->
                   disable_action n self' = Raise (KeyError n).
Proof.
  intros Hr. apply reachable_inv in Hr as (Hnd & _ & _). cbn [fst snd] in Hnd.
  rewrite actions_names. unfold disable_action, ODict.del.
  destruct (ODict.get n (_actions self)) as [a |] eqn:Hget; cbn [rbind].
  - assert (Hin : In n (ODict.keys (_actions self))).
    { apply odict_get_in in Hget. change n with (fst (n, a)).
      now apply in_map. }
    split; [| split].
    + split; [discriminate | tauto].
    + split; [intros _; exact Hin | eauto].
    + intros self' [= <-]. cbn [_actions].
      assert (Hgone : ODict.get n (ODict.remove n (_actions self)) = None).
      { apply odict_get_none. now apply odict_remove_absent. }
      now rewrite Hgone.
  - apply odict_get_none in Hget. split; [| split].
    + tauto.
    + split; [intros [self' Hs]; discriminate | tauto].
    + discriminate.
Qed.

Lemma disable_action_key_error_witness :
  let hs := add_action 0%nat (Some "flip") (Sample.heap0, Sample.site0) in
  reachable hs
  /\ exists disabled,
       disable_action "flip" (snd hs) = Ok disabled
       /\ disable_action "flip" disabled = Raise (KeyError "flip").
Proof.
  assert (Hr : reachable
                 (add_action 0%nat (Some "flip") (Sample.heap0, Sample.site0))).
  { apply reach_add, reach_init. }
  cbv zeta. split; [exact Hr |].
  eexists. split; [reflexivity |].
  exact (proj2 (proj2 (disable_action_key_error _ _ "flip" Hr)) _ eq_refl).
Defined.

(** X16: every entry of the active listing can be fetched by name:
    [get_action] answers the very action the listing shows. *)
Theorem active_action_is_found (h : heap) (self : FileBrowserSite)
    (n : string) (a : action_ref) :
  reachable (h, self) ->
  In (n, a) (actions self) ->
  get_action n self = Ok a.
Proof.
  intros Hr Hin. apply reachable_inv in Hr as (Hnd & _ & Hglob).
  cbn [fst snd] in Hnd, Hglob.
  apply actions_in_iff in Hin; [| exact Hnd].
  unfold get_action, ODict.subscript. now rewrite (Hglob n a Hin).
Qed.

Lemma active_action_is_found_witness :
  let hs := add_action 1%nat None
              (add_action 0%nat None (Sample.heap0, Sample.site0)) in
  (reachable hs /\ In ("rotate_180"%string, 1%nat) (actions (snd hs)))
  /\ get_action "rotate_180" (snd hs) = Ok 1%nat.
Proof.
  assert (Hr : reachable
                 (add_action 1%nat None
                    (add_action 0%nat None (Sample.heap0, Sample.site0)))).
  { do 2 apply reach_add. apply reach_init. }
  assert (Hin : In ("rotate_180"%string, 1%nat)
                  (actions (snd (add_action 1%nat None
                                   (add_action 0%nat None
                                      (Sample.heap0, Sample.site0)))))).
  { right. left. reflexivity. }
  cbv zeta. split; [split; [exact Hr | exact Hin] |].
  exact (active_action_is_found _ _ "rotate_180" 1%nat Hr Hin).
Defined.

Lemma registry_step_reachable (hs hs' : heap * FileBrowserSite) :
  reachable hs -> registry_step hs hs' -> reachable hs'.
Proof.
  intros Hr Hstep. destruct Hstep as [hs action name | h self self' name Hdis].
  - now apply reach_add.
  - eapply reach_disable; eassumption.
Qed.

(** X17: a name that [get_action] finds is found after any further calls
    of [add_action] and [disable_action]: no call takes a name out of
    [_global_actions]. *)
Theorem registered_name_stays_found (hs hs' : heap * FileBrowserSite)
    (n : string) (a : action_ref) :
  rtc registry_step hs hs' ->
  get_action n (snd hs) = Ok a ->
  exists a', get_action n (snd hs') = Ok a'.
Proof.
  intros Hsteps. revert a. induction Hsteps as [hs | hs hs1 hs' Hstep _ IH];
    intros a Hget; [eauto |].
  assert (Hnext : exists a1, get_action n (snd hs1) = Ok a1).
  { destruct Hstep as [[h self] action name | h self self' name Hdis].
    - rewrite add_action_site. unfold get_action, ODict.subscript in *.
      cbn [snd _global_actions] in *.
      destruct (String.eqb_spec (action_name h action name) n) as [<- | Hne].
      + rewrite odict_get_set_eq. eauto.
      + rewrite odict_get_set_ne by assumption. eauto.
    - unfold disable_action in Hdis.
      destruct (ODict.del name (_actions self)) as [d |]; cbn in Hdis;
        [| discriminate].
      injection Hdis as <-. cbn [snd] in *. eauto. }
  destruct Hnext as [a1 Ha1]. eapply IH. exact Ha1.
Qed.

Lemma registered_name_stays_found_witness :
  let hs := add_action 0%nat (Some "flip") (Sample.heap0, Sample.site0) in
  exists disabled,
    disable_action "flip" (snd hs) = Ok disabled
    /\ rtc registry_step hs (fst hs, disabled)
    /\ get_action "flip" (snd hs) = Ok 0%nat
    /\ exists a', get_action "flip" disabled = Ok a'.
Proof.
  cbv zeta. eexists. split; [reflexivity |].
  assert (Hsteps : rtc registry_step
            (add_action 0%nat (Some "flip") (Sample.heap0, Sample.site0))
            (fst (add_action 0%nat (Some "flip") (Sample.heap0, Sample.site0)),
             mk_site (Some "filebrowser") "filebrowser" [] [("flip", 0%nat)])).
  { apply rtc_once.
    exact (step_disable _ (snd (add_action 0%nat (Some "flip")
                                  (Sample.heap0, Sample.site0)))
             _ "flip" eq_refl). }
  split; [exact Hsteps |]. split; [reflexivity |].
  exact (registered_name_stays_found _ _ "flip" 0%nat Hsteps eq_refl).
Defined.

(** X18: an action registered without an [applies_to] of its own applies
    to every file object: right after its registration
    [applicable_actions] lists it, whatever the file object. *)
Theorem default_applies_to_everything (h : heap) (self : FileBrowserSite)
    (action : action_ref) (name : option string) (fileobject : FileObject) :
  reachable (h, self) ->
  applies_to (h action) = None ->
  let hs := add_action action name (h, self) in
  exists applicable,
    applicable_actions (fst hs) (snd hs) fileobject = Ok applicable
    /\ In (action_name h action name, action) applicable.
Proof.
  intros Hr Hnone hs.
  assert (Hr' : reachable hs) by now apply reach_add.
  assert (Hpair : hs = (fst hs, snd hs)) by now destruct hs.
  rewrite Hpair in Hr'.
  rewrite (applicable_actions_filter _ _ fileobject Hr').
  eexists. split; [reflexivity |].
  apply filter_In. split.
  - apply reachable_inv in Hr' as (Hnd & _ & _). cbn [fst snd] in Hnd.
    apply actions_in_iff; [exact Hnd |].
    unfold hs. rewrite add_action_site. cbn [_actions].
    apply odict_get_set_eq.
  - unfold action_applies, hs. cbn [snd add_action fst]. unfold heap_set.
    destruct (short_description (h action)) as [d |];
      rewrite ?Nat.eqb_refl; cbn [applies_to]; rewrite Hnone;
      rewrite ?Nat.eqb_refl; reflexivity.
Qed.

Lemma default_applies_to_everything_witness :
  (reachable (Sample.heap0, Sample.site0)
   /\ applies_to (Sample.heap0 0%nat) = None)
  /\ applicable_actions
       (fst (add_action 0%nat None (Sample.heap0, Sample.site0)))
       (snd (add_action 0%nat None (Sample.heap0, Sample.site0)))
       (Sample.folder "a")
     = Ok [("flip_horizontal", 0%nat)].
Proof.
  split; [split; [apply reach_init | reflexivity] |].
  destruct (default_applies_to_everything Sample.heap0 Sample.site0 0%nat None
              (Sample.folder "a") (reach_init _ _ _) eq_refl)
    as (applicable & Hrun & _).
  rewrite Hrun. f_equal. cbv in Hrun. now injection Hrun as <-.
Defined.

(** *** Further properties: uploads *)

Section UploadMore.
Context {St : Type} `{Storage St}.
Variable cfg : settings.
Variable directory : string.
Variable convert_filename : string -> string.
Variable strip_upload_url : string -> string.
Variable path_full : string -> string.

Local Abbreviation folder_of := (upload_folder strip_upload_url).
Local Abbreviation file_path_of :=
  (candidate_path cfg directory convert_filename strip_upload_url).
Local Abbreviation run :=
  (_upload_file cfg directory convert_filename strip_upload_url path_full).
Local Abbreviation saved_of :=
  (saved_trace cfg directory convert_filename strip_upload_url).
Local Abbreviation success_of :=
  (success_response cfg convert_filename strip_upload_url).

(** X19: only a POST with exactly one file reaches the storage: any other
    method gets no answer, a POST without a file or with several files gets
    a bad-request answer, and in all three cases no call is made and no
    signal is sent. *)
Theorem upload_rejects_bad_requests (req : request) (w : world St) :
  (method req <> "POST" -> run req w = (Ok None, w))
  /\ (method req = "POST" -> FILES req = [] ->
      run req w
      = (Ok (Some (HttpResponseBadRequest
                     "Invalid request! No files included.")), w))
  /\ (method req = "POST" -> (2 <= length (FILES req))%nat ->
      run req w
      = (Ok (Some (HttpResponseBadRequest
                     "Invalid request! Multiple files included.")), w)).
Proof.
  unfold _upload_file. split; [| split].
  - intros Hm. apply String.eqb_neq in Hm. now rewrite Hm.
  - intros -> ->. reflexivity.
  - intros -> Hlen. destruct (FILES req) as [| f1 [| f2 rest]];
      cbn in Hlen; try lia. reflexivity.
Qed.

Lemma upload_run_save (req : request) (filedata : UploadedFile)
    (w : world St) :
  method req = "POST" ->
  FILES req = [filedata] ->
  storage_exists (store w) (file_path_of req filedata)
  && storage_isdir (store w) (file_path_of req filedata) = false ->
  run req w
  = match storage_save (file_path_of req filedata) (content filedata) (store w)
    with
    | (Raise e, st1) => (Raise e, mk_world st1 (saved_of req filedata w))
    | (Ok uploadedfile, st1) =>
        bind (if storage_exists (store w) (file_path_of req filedata)
                 && OVERWRITE_EXISTING cfg
              then bind (call (EvMove uploadedfile (file_path_of req filedata)
                                 true)
                           (storage_move uploadedfile
                              (file_path_of req filedata) true))
                        (fun _ => ret (file_path_of req filedata))
              else ret uploadedfile)
          (fun f =>
             bind (set_permissions cfg path_full f) (fun _ =>
             bind (send "filebrowser_post_upload" (folder_of req) f) (fun _ =>
             ret (Some (success_of req filedata f)))))
          (mk_world st1 (saved_of req filedata w))
    end.
Proof.
  intros Hpost Hfiles Hcoll. unfold _upload_file.
  rewrite Hpost, Hfiles. cbn [String.eqb Ascii.eqb Bool.eqb].
  unfold candidate_path, upload_path, upload_folder, saved_trace,
    success_response in *.
  cbn [name content]. rewrite Hcoll.
  unfold bind at 1. unfold send at 1, log. cbn [store trace].
  unfold bind at 1. unfold handle_file_upload, call at 1.
  cbn [name content store trace].
  destruct (storage_save _ _ (store w)) as [[uploadedfile | e] st1];
    rewrite <- app_assoc; reflexivity.
Qed.

End UploadMore.

Section UploadOutcomes.
Context {St : Type} `{Storage St}.
Variable cfg : settings.
Variable directory : string.
Variable convert_filename : string -> string.
Variable strip_upload_url : string -> string.
Variable path_full : string -> string.

Local Abbreviation folder_of := (upload_folder strip_upload_url).
Local Abbreviation file_path_of :=
  (candidate_path cfg directory convert_filename strip_upload_url).
Local Abbreviation run :=
  (_upload_file cfg directory convert_filename strip_upload_url path_full).
Local Abbreviation saved_of :=
  (saved_trace cfg directory convert_filename strip_upload_url).
Local Abbreviation success_of :=
  (success_response cfg convert_filename strip_upload_url).

(** X20: an upload under a name that is not in use never moves anything,
    whatever OVERWRITE_EXISTING says: when the save and the permission
    change return, the answer has success true and names the file the
    backend saved, and the trace holds the pre-upload signal, the save, the
    permission change if one is configured, and the post-upload signal. *)
Theorem upload_fresh_name (req : request) (filedata : UploadedFile)
    (w w3 : world St) (uploadedfile : string) (st1 : St) :
  method req = "POST" ->
  FILES req = [filedata] ->
  storage_exists (store w) (file_path_of req filedata) = false ->
  storage_save (file_path_of req filedata) (content filedata) (store w)
  = (Ok uploadedfile, st1) ->
  set_permissions cfg path_full uploadedfile
    (mk_world st1 (saved_of req filedata w)) = (Ok tt, w3) ->
  run req w
  = (Ok (Some (success_of req filedata uploadedfile)),
     mk_world (store w3)
       (trace w3
        ++ [EvSignal "filebrowser_post_upload" (folder_of req) uploadedfile]))
  /\ (forall old new allow_overwrite,
        In (EvMove old new allow_overwrite) (trace w3) ->
        In (EvMove old new allow_overwrite) (trace w)).
Proof.
  intros Hpost Hfiles Hex Hsave Hperm. split.
  - rewrite upload_run_save with (filedata := filedata)
      by (try assumption; now rewrite Hex).
    rewrite Hsave, Hex. cbn [andb].
    unfold bind at 1, ret at 1. unfold bind at 1. rewrite Hperm.
    reflexivity.
  - intros old new ao Hin.
    unfold set_permissions in Hperm.
    destruct (DEFAULT_PERMISSIONS cfg) as [mode |].
    + unfold call in Hperm. cbn [store trace] in Hperm.
      destruct (os_chmod (path_full uploadedfile) mode st1) as [r st2].
      injection Hperm as _ <-. cbn [trace] in Hin.
      unfold saved_trace in Hin. rewrite !in_app_iff in Hin.
      cbn [In] in Hin. intuition discriminate.
    + unfold ret in Hperm. injection Hperm as <-. cbn [trace] in Hin.
      unfold saved_trace in Hin. rewrite !in_app_iff in Hin.
      cbn [In] in Hin. intuition discriminate.
Qed.

(** X21: a backend failure ends the upload where it happens. When the save
    raises, the view raises the same exception after the pre-upload signal
    and the save attempt; when the move onto an existing file raises, the
    file stays where the backend saved it and the view raises; in both
    cases no permission is changed and no post-upload signal is sent. *)
Theorem upload_backend_failure (req : request) (filedata : UploadedFile)
    (w : world St) (e : exn) (st1 : St) :
  method req = "POST" ->
  FILES req = [filedata] ->
  storage_exists (store w) (file_path_of req filedata)
  && storage_isdir (store w) (file_path_of req filedata) = false ->
  (storage_save (file_path_of req filedata) (content filedata) (store w)
   = (Raise e, st1) ->
   run req w = (Raise e, mk_world st1 (saved_of req filedata w)))
  /\ (forall uploadedfile st2,
        storage_save (file_path_of req filedata) (content filedata) (store w)
        = (Ok uploadedfile, st1) ->
        storage_exists (store w) (file_path_of req filedata) = true ->
        OVERWRITE_EXISTING cfg = true ->
        storage_move uploadedfile (file_path_of req filedata) true st1
        = (Raise e, st2) ->
        run req w
        = (Raise e,
           mk_world st2
             (saved_of req filedata w
              ++ [EvMove uploadedfile (file_path_of req filedata) true]))).
Proof.
  intros Hpost Hfiles Hcoll. split.
  - intros Hsave.
    rewrite upload_run_save with (filedata := filedata) by assumption.
    now rewrite Hsave.
  - intros uploadedfile st2 Hsave Hex How Hmove.
    rewrite upload_run_save with (filedata := filedata) by assumption.
    rewrite Hsave, Hex, How. cbn [andb].
    unfold bind at 1. unfold bind at 1. unfold call. cbn [store trace].
    now rewrite Hmove.
Qed.

End UploadOutcomes.

Lemma upload_rejects_bad_requests_witness :
  _upload_file Sample.cfg "uploads" id id id
    (mk_request "GET" ∅ [mk_upload "notes.txt" "new"]) Sample.world0
  = (Ok None, Sample.world0)
  /\ _upload_file Sample.cfg "uploads" id id id
       (mk_request "POST" ∅ []) Sample.world0
     = (Ok (Some (HttpResponseBadRequest
                    "Invalid request! No files included.")), Sample.world0)
  /\ _upload_file Sample.cfg "uploads" id id id
       (mk_request "POST" ∅
          [mk_upload "notes.txt" "new"; mk_upload "more.txt" "new"])
       Sample.world0
     = (Ok (Some (HttpResponseBadRequest
                    "Invalid request! Multiple files included.")),
        Sample.world0).
Proof.
  split; [| split].
  - apply (proj1 (upload_rejects_bad_requests Sample.cfg "uploads" id id id
                    (mk_request "GET" ∅ [mk_upload "notes.txt" "new"])
                    Sample.world0)).
    cbn [method]. discriminate.
  - apply (proj1 (proj2 (upload_rejects_bad_requests Sample.cfg "uploads"
                           id id id (mk_request "POST" ∅ [])
                           Sample.world0))); reflexivity.
  - apply (proj2 (proj2 (upload_rejects_bad_requests Sample.cfg "uploads"
                           id id id
                           (mk_request "POST" ∅
                              [mk_upload "notes.txt" "new";
                               mk_upload "more.txt" "new"])
                           Sample.world0))); [reflexivity | cbn; lia].
Defined.

Lemma upload_fresh_name_witness :
  let req := Sample.post (mk_upload "notes.txt" "new") in
  (method req = "POST" /\ FILES req = [mk_upload "notes.txt" "new"]
   /\ MemStorage.exists_ Sample.store0 "uploads/notes.txt" = false
   /\ OVERWRITE_EXISTING Sample.overwriting = true)
  /\ exists w,
       _upload_file Sample.overwriting "uploads" id id id req Sample.world0
       = (Ok (Some (HttpResponse (mk_json true "notes.txt" (Some None))
                      (Some "application/json"))), w)
       /\ trace w
          = [EvSignal "filebrowser_pre_upload" "" "notes.txt";
             EvSave "uploads/notes.txt" "new";
             EvChmod "uploads/notes.txt" 420;
             EvSignal "filebrowser_post_upload" "" "uploads/notes.txt"]
       /\ MemStorage.read (store w) "uploads/notes.txt" = Some "new".
Proof.
  cbv zeta. split; [repeat split |].
  destruct (upload_fresh_name Sample.overwriting "uploads" id id id
              (Sample.post (mk_upload "notes.txt" "new"))
              (mk_upload "notes.txt" "new") Sample.world0
              (mk_world
                 (<["uploads/notes.txt" := MemStorage.File "new"]>
                    Sample.store0)
                 [EvSignal "filebrowser_pre_upload" "" "notes.txt";
                  EvSave "uploads/notes.txt" "new";
                  EvChmod "uploads/notes.txt" 420])
              "uploads/notes.txt"
              (<["uploads/notes.txt" := MemStorage.File "new"]> Sample.store0)
              ltac:(reflexivity) ltac:(reflexivity)
              ltac:(vm_compute; reflexivity) ltac:(vm_compute; reflexivity)
              ltac:(vm_compute; reflexivity)) as [Hrun _].
  eexists. split; [exact Hrun |]. split; vm_compute; reflexivity.
Defined.

Lemma upload_backend_failure_witness :
  let req := Sample.post (mk_upload "report.pdf" "new") in
  let full :=
    <["uploads/report.pdf_1" := MemStorage.File "older"]> Sample.store0 in
  _upload_file Sample.cfg "uploads" id id id req (mk_world full [])
  = (Raise (StorageError "uploads/report.pdf"),
     mk_world full
       [EvSignal "filebrowser_pre_upload" "" "report.pdf";
        EvSave "uploads/report.pdf" "new"])
  /\ _upload_file Sample.overwriting "uploads" id id id req
       (mk_world (NoMoveStorage.mk Sample.store0) [])
     = (Raise (OSError "uploads/report.pdf_1"),
        mk_world
          (NoMoveStorage.mk
             (<["uploads/report.pdf_1" := MemStorage.File "new"]>
                Sample.store0))
          [EvSignal "filebrowser_pre_upload" "" "report.pdf";
           EvSave "uploads/report.pdf" "new";
           EvMove "uploads/report.pdf_1" "uploads/report.pdf" true]).
Proof.
  cbv zeta. split.
  - apply (proj1 (upload_backend_failure Sample.cfg "uploads" id id id
                    (Sample.post (mk_upload "report.pdf" "new"))
                    (mk_upload "report.pdf" "new")
                    (mk_world
                       (<["uploads/report.pdf_1" := MemStorage.File "older"]>
                          Sample.store0) [])
                    (StorageError "uploads/report.pdf")
                    (<["uploads/report.pdf_1" := MemStorage.File "older"]>
                       Sample.store0)
                    ltac:(reflexivity) ltac:(reflexivity)
                    ltac:(vm_compute; reflexivity))).
    vm_compute; reflexivity.
  - apply (proj2 (upload_backend_failure Sample.overwriting "uploads" id id id
                    (Sample.post (mk_upload "report.pdf" "new"))
                    (mk_upload "report.pdf" "new")
                    (mk_world (NoMoveStorage.mk Sample.store0) [])
                    (OSError "uploads/report.pdf_1")
                    (NoMoveStorage.mk
                       (<["uploads/report.pdf_1" := MemStorage.File "new"]>
                          Sample.store0))
                    ltac:(reflexivity) ltac:(reflexivity)
                    ltac:(vm_compute; reflexivity))
             "uploads/report.pdf_1"
             (NoMoveStorage.mk
                (<["uploads/report.pdf_1" := MemStorage.File "new"]>
                   Sample.store0)));
      vm_compute; reflexivity.
Defined.

Section UploadTemp.
Context {St : Type} `{Storage St}.
Variable cfg : settings.
Variable convert_filename : string -> string.
Variable strip_upload_url : string -> string.
Variable path_full : string -> string.

(** X22: an upload into the temporary folder (the folder parameter, once
    the upload URL is stripped, is UPLOAD_TEMPDIR and the temporary
    parameter is "true") does not look at the site's directory: the view
    runs the same under any two directories, the file is asked to be saved
    at UPLOAD_TEMPDIR joined with the converted name, and temp_filename in
    a success answer is that very path. *)
Theorem upload_to_temp_ignores_directory (d1 d2 : string) (req : request)
    (w : world St) :
  upload_to_temp cfg (upload_folder strip_upload_url req)
    (default "" (GET req !! "temporary")) = true ->
  _upload_file cfg d1 convert_filename strip_upload_url path_full req w
  = _upload_file cfg d2 convert_filename strip_upload_url path_full req w
  /\ forall (filedata : UploadedFile) (f : string),
       candidate_path cfg d1 convert_filename strip_upload_url req filedata
       = Str.path_join (UPLOAD_TEMPDIR cfg) (convert_filename (name filedata))
       /\ success_response cfg convert_filename strip_upload_url req filedata f
          = HttpResponse
              (mk_json true (Str.basename f)
                 (Some (Some (candidate_path cfg d1 convert_filename
                                strip_upload_url req filedata))))
              (Some "application/json").
Proof.
  intros Htemp.
  assert (Hfolder : upload_folder strip_upload_url req = UPLOAD_TEMPDIR cfg).
  { unfold upload_to_temp in Htemp. apply andb_true_iff in Htemp.
    now apply String.eqb_eq. }
  split.
  - unfold _upload_file. unfold upload_folder in Htemp. cbv zeta.
    rewrite !Htemp. reflexivity.
  - intros filedata f.
    unfold success_response, candidate_path, upload_path, FileObject_filename.
    rewrite !Htemp, Hfolder. split; reflexivity.
Qed.

End UploadTemp.

Lemma upload_to_temp_ignores_directory_witness :
  let req :=
    mk_request "POST"
      (Sample.query [("folder", "_filebrowser_temp"); ("temporary", "true")])
      [mk_upload "notes.txt" "new"] in
  upload_to_temp Sample.cfg (upload_folder id req)
    (default "" (GET req !! "temporary")) = true
  /\ _upload_file Sample.cfg "uploads" id id id req Sample.world0
     = _upload_file Sample.cfg "elsewhere" id id id req Sample.world0
  /\ candidate_path Sample.cfg "uploads" id id req (mk_upload "notes.txt" "new")
     = "_filebrowser_temp/notes.txt".
Proof.
  cbv zeta. split; [vm_compute; reflexivity |].
  destruct (upload_to_temp_ignores_directory Sample.cfg id id id
              "uploads" "elsewhere"
              (mk_request "POST"
                 (Sample.query
                    [("folder", "_filebrowser_temp"); ("temporary", "true")])
                 [mk_upload "notes.txt" "new"])
              Sample.world0 ltac:(vm_compute; reflexivity)) as [Hrun Hpath].
  split; [exact Hrun |].
  destruct (Hpath (mk_upload "notes.txt" "new") "") as [Hcand _].
  rewrite Hcand. vm_compute; reflexivity.
Defined.

(** *** Further properties: the delete confirmation *)

(** X23: the delete confirmation of a folder shows at most 100 of the
    entries below it and counts the others in additional_files: the two
    numbers add up to the number of entries, and additional_files is None,
    never 0, when every entry is shown. For anything that is not a folder
    both are None. *)
Theorem delete_confirm_counts (cfg : settings)
    (storage_view : string -> dirtree) (directory : string)
    (GET : gmap string string) :
  let ctx := delete_confirm cfg storage_view directory GET in
  let path := Str.path_join directory (default "" (GET !! "dir")) in
  let n :=
    length (descendants
              (storage_view
                 (Str.path_join path (filename (dc_fileobject ctx))))) in
  match dc_filelisting ctx with
  | Some shown =>
      filetype (dc_fileobject ctx) = "Folder"
      /\ length shown = Nat.min 100 n
      /\ Z.of_nat (length shown) + default 0 (dc_additional_files ctx)
         = Z.of_nat n
      /\ dc_additional_files ctx <> Some 0
  | None =>
      filetype (dc_fileobject ctx) <> "Folder"
      /\ dc_additional_files ctx = None
  end.
Proof.
  cbv zeta. unfold delete_confirm. cbv zeta.
  set (fileobject := tree_obj _).
  destruct (String.eqb (filetype fileobject) "Folder") eqn:Hfolder.
  - apply String.eqb_eq in Hfolder. unfold files_walk_total. cbn [fl_root].
    set (all := descendants _).
    destruct (100 <? Z.of_nat (length all)) eqn:Hlong;
      cbn [dc_filelisting dc_additional_files dc_fileobject default
           from_option id].
    + apply Z.ltb_lt in Hlong. fold all.
      rewrite length_take. repeat split; try assumption; try lia.
      intros [= Hzero]. lia.
    + apply Z.ltb_ge in Hlong. fold all.
      repeat split; try assumption; try lia. discriminate.
  - apply String.eqb_neq in Hfolder.
    cbn [dc_filelisting dc_additional_files dc_fileobject]. now split.
Qed.
